(** * Smart-bag sensor drivers: DHT22 climate decoder and HX711 load cell

    A shallow embedding of [dht22.c] / [dht22.h] / [hx711.h] and the
    properties of the two protocol drivers.

    Conventions.
    - A C [uint8_t] / [uint32_t] / [int] value is a [Z]; every wrap-around
      the C code performs is written out ([u8], [u32], [sub32]).
    - A C [float] is a binary32 and a C [double] a binary64 value of the
      IEEE-754 specification of the standard library ([spec_float]).
    - The Pico SDK is the platform: every SDK call the driver makes is
      recorded, in program order, in the list of calls of the world, and
      the value an SDK query returns is decided by the platform from the
      calls made so far.
    - The busy-wait loop of [wait_for_pin_state] has no bound of its own:
      it takes a poll budget, and a computation whose budget runs out
      yields no value (the world it reached is still there). *)

From Stdlib Require Import ZArith List Bool Lia QArith Qabs Lqa.
From Stdlib Require Import Floats.SpecFloat.
Import ListNotations.

Local Open Scope Z_scope.

(** ** Machine integers *)

Definition u8 (x : Z) : Z := x mod 256.
Definition u32 (x : Z) : Z := x mod 2 ^ 32.

(** [a - b] on [uint32_t]. *)
Definition sub32 (a b : Z) : Z := u32 (a - b).

Definition is_u8 (x : Z) : Prop := 0 <= x < 256.

(** ** The [uint8_t data[5]] buffer *)

Definition ix (data : list Z) (i : Z) : Z := nth (Z.to_nat i) data 0.

Fixpoint upd_nat (data : list Z) (n : nat) (v : Z) : list Z :=
  match data, n with
  | [], _ => []
  | _ :: rest, O => v :: rest
  | x :: rest, S n' => x :: upd_nat rest n' v
  end.

(** [data[i] = v]; the driver never stores outside the buffer. *)
Definition upd (data : list Z) (i : Z) (v : Z) : list Z :=
  upd_nat data (Z.to_nat i) v.

(** ** C floating point *)

(** [float] is binary32, [double] is binary64. *)
Definition float_of_int (n : Z) : spec_float :=
  binary_normalize 24 128 n 0 false.
Definition double_of_int (n : Z) : spec_float :=
  binary_normalize 53 1024 n 0 false.

Definition float_of_double (x : spec_float) : spec_float :=
  match x with
  | S754_finite s m e => binary_round 24 128 s m e
  | _ => x
  end.

Definition double_of_float (x : spec_float) : spec_float :=
  match x with
  | S754_finite s m e => binary_round 53 1024 s m e
  | _ => x
  end.

Definition fmul : spec_float -> spec_float -> spec_float := SFmul 24 128.
Definition fdiv : spec_float -> spec_float -> spec_float := SFdiv 24 128.
Definition dmul : spec_float -> spec_float -> spec_float := SFmul 53 1024.

(** The [double] literals of dht22.c; [0.1] is 0x3FB999999999999A. *)
Definition lit_0_1 : spec_float := S754_finite false 7205759403792794 (-56).
Definition lit_0_0 : spec_float := S754_zero false.
Definition lit_100_0 : spec_float := double_of_int 100.
Definition lit_40_0 : spec_float := double_of_int 40.
Definition lit_80_0 : spec_float := double_of_int 80.

(** [n * 0.1] with [n] an [int], stored to a [float]: the product is
    computed in [double] and then rounded to binary32. *)
Definition times_0_1 (n : Z) : spec_float :=
  float_of_double (dmul (double_of_int n) lit_0_1).

(** The rational number a finite float stands for: [(-1)^s * m * 2^e]. *)
Definition SF2Q (x : spec_float) : Q :=
  match x with
  | S754_finite s m e =>
      let num := if s then Zneg m else Zpos m in
      match e with
      | Z0 => inject_Z num
      | Zpos _ => inject_Z (num * 2 ^ e)
      | Zneg p => Qmake num (2 ^ p)
      end
  | _ => 0%Q
  end.

Definition is_finite (x : spec_float) : bool :=
  match x with
  | S754_finite _ _ _ | S754_zero _ => true
  | _ => false
  end.

(** A normal binary32 value with a negative exponent: the shape of every
    non-zero value the decoder produces. *)
Definition normal32 (x : spec_float) : bool :=
  match x with
  | S754_finite _ m e =>
      (Zpos (digits2_pos m) =? 24) && (-149 <=? e) && (e <? 0)
  | _ => false
  end.

(** A binary64 value with a full mantissa and a negative exponent, or a
    zero. *)
Definition plain64 (x : spec_float) : bool :=
  match x with
  | S754_zero _ => true
  | S754_finite _ m (Zneg _) => Zpos (digits2_pos m) =? 53
  | _ => false
  end.

(** What the decoder can produce: a zero or such a binary32 value. *)
Definition decodable (x : spec_float) : bool :=
  match x with
  | S754_zero _ => true
  | _ => normal32 x
  end.

(** The values of a [uint8_t]. *)
Definition all_bytes : list Z := map Z.of_nat (seq 0 256).

(** The sign bit. *)
Definition sign_of (x : spec_float) : bool :=
  match x with
  | S754_zero s | S754_infinity s | S754_finite s _ _ => s
  | S754_nan => false
  end.

(** [times_0_1 n] is a non-negative decodable value within a relative
    error of 2^-23 of [n / 10]. *)
Definition tenths_ok (n : Z) : bool :=
  let x := times_0_1 n in
  decodable x && negb (sign_of x)
  && Qle_bool (Qabs (SF2Q x - inject_Z n / 10))
              (inject_Z n / 10 * (1 # 8388608)).

(** ** The platform (Pico SDK) *)

(** One SDK call, with the value it returned for the three queries. *)
Inductive hw_call : Type :=
| Gpio_init (pin : Z)
| Gpio_set_pulls (pin : Z) (up down : bool)
| Gpio_set_dir (pin : Z) (out : bool)
| Gpio_put (pin : Z) (value : bool)
| Gpio_get (pin : Z) (level : bool)
| Time_us_32 (now : Z)
| To_ms_since_boot (now : Z)
| Sleep_us (us : Z)
| Sleep_ms (ms : Z).

Definition GPIO_OUT : bool := true.
Definition GPIO_IN : bool := false.

(** What the hardware answers, given the calls made so far. *)
Record platform : Type := {
  level : list hw_call -> Z -> bool;  (* gpio_get(pin) *)
  micros : list hw_call -> Z;         (* the microsecond counter *)
  millis : list hw_call -> Z          (* milliseconds since boot *)
}.

(** ** Driver state (dht22.c, lines 12-19) *)

Record dht22_state_t : Type := {
  last_read_time_ms : Z;
  pin : Z;
  initialized : bool
}.

Definition dht22_state_initial : dht22_state_t :=
  {| last_read_time_ms := 0; pin := 0; initialized := false |}.

Definition set_last_read_time_ms (t : Z) (s : dht22_state_t) : dht22_state_t :=
  {| last_read_time_ms := t; pin := pin s; initialized := initialized s |}.
Definition set_pin (p : Z) (s : dht22_state_t) : dht22_state_t :=
  {| last_read_time_ms := last_read_time_ms s; pin := p;
     initialized := initialized s |}.
Definition set_initialized (b : bool) (s : dht22_state_t) : dht22_state_t :=
  {| last_read_time_ms := last_read_time_ms s; pin := pin s;
     initialized := b |}.

Record world : Type := {
  dht22_state : dht22_state_t;
  calls : list hw_call
}.

(** ** Computations *)

Definition M (A : Type) : Type := world -> option A * world.

Definition ret {A} (a : A) : M A := fun w => (Some a, w).

Definition bind {A B} (m : M A) (k : A -> M B) : M B :=
  fun w => match m w with
           | (Some a, w') => k a w'
           | (None, w') => (None, w')
           end.

(** The poll budget is used up. *)
Definition spin {A} : M A := fun w => (None, w).

Declare Scope drv_scope.
Delimit Scope drv_scope with drv.
Notation "x <- m ;; k" := (bind m (fun x => k))
  (at level 61, m at next level, right associativity) : drv_scope.
Notation "' p <- m ;; k" := (bind m (fun x => match x with p => k end))
  (at level 61, p pattern, m at next level, right associativity) : drv_scope.
Notation "m ;; k" := (bind m (fun _ => k))
  (at level 61, right associativity) : drv_scope.
Local Open Scope drv_scope.

Definition get_state : M dht22_state_t := fun w => (Some (dht22_state w), w).

Definition modify_state (f : dht22_state_t -> dht22_state_t) : M unit :=
  fun w => (Some tt, {| dht22_state := f (dht22_state w); calls := calls w |}).

Definition record_call (c : hw_call) : M unit :=
  fun w => (Some tt, {| dht22_state := dht22_state w;
                        calls := calls w ++ [c] |}).

(** ** dht22.h, lines 7-11, and dht22.c, lines 6-9 *)

Definition DHT22_OK : Z := 0.
Definition DHT22_ERROR_CHECKSUM : Z := -1.
Definition DHT22_ERROR_TIMEOUT : Z := -2.
Definition DHT22_ERROR_INVALID_DATA : Z := -3.
Definition DHT22_ERROR_NOT_INITIALIZED : Z := -4.

Definition DHT22_START_SIGNAL_DELAY : Z := 18000.
Definition DHT22_RESPONSE_WAIT_TIMEOUT : Z := 200.
Definition DHT22_BIT_THRESHOLD : Z := 50.
Definition DHT22_MIN_INTERVAL_MS : Z := 2000.

Section Driver.

Context (hw : platform).

(** *** SDK calls *)

Definition gpio_init (p : Z) : M unit := record_call (Gpio_init p).
Definition gpio_set_pulls (p : Z) (up down : bool) : M unit :=
  record_call (Gpio_set_pulls p up down).
Definition gpio_set_dir (p : Z) (out : bool) : M unit :=
  record_call (Gpio_set_dir p out).
Definition gpio_put (p : Z) (v : bool) : M unit := record_call (Gpio_put p v).
Definition sleep_us (us : Z) : M unit := record_call (Sleep_us us).
Definition sleep_ms (ms : Z) : M unit := record_call (Sleep_ms ms).

Definition gpio_get (p : Z) : M bool :=
  fun w => let b := level hw (calls w) p in
           (Some b, {| dht22_state := dht22_state w;
                       calls := calls w ++ [Gpio_get p b] |}).

Definition time_us_32 : M Z :=
  fun w => let t := u32 (micros hw (calls w)) in
           (Some t, {| dht22_state := dht22_state w;
                       calls := calls w ++ [Time_us_32 t] |}).

(** [to_ms_since_boot(get_absolute_time())] *)
Definition to_ms_since_boot : M Z :=
  fun w => let t := u32 (millis hw (calls w)) in
           (Some t, {| dht22_state := dht22_state w;
                       calls := calls w ++ [To_ms_since_boot t] |}).

(** *** wait_for_pin_state (dht22.c, lines 22-30) *)

(** The [while] loop; [polls] bounds the number of iterations. *)
Fixpoint wait_loop (polls : nat) (p : Z) (state : bool) (timeout_us start : Z)
  : M Z :=
  match polls with
  | O => spin
  | S polls' =>
      b <- gpio_get p ;;
      if Bool.eqb b state then ret 0
      else
        now <- time_us_32 ;;
        if sub32 now start >? timeout_us then ret (-1)
        else wait_loop polls' p state timeout_us start
  end.

Definition wait_for_pin_state (polls : nat) (p : Z) (state : bool)
  (timeout_us : Z) : M Z :=
  start <- time_us_32 ;;
  wait_loop polls p state timeout_us start.

(** *** dht22_init (lines 33-44) *)

Definition dht22_init (p : Z) : M Z :=
  gpio_init p ;;
  gpio_set_pulls p true false ;;
  modify_state (set_pin p) ;;
  modify_state (set_last_read_time_ms 0) ;;
  modify_state (set_initialized true) ;;
  ret DHT22_OK.

(** *** dht22_send_start_signal (lines 47-61) *)

Definition dht22_send_start_signal (p : Z) : M Z :=
  gpio_set_dir p GPIO_OUT ;;
  gpio_put p false ;;
  sleep_us DHT22_START_SIGNAL_DELAY ;;
  gpio_put p true ;;
  sleep_us 30 ;;
  gpio_set_dir p GPIO_IN ;;
  ret DHT22_OK.

(** *** dht22_wait_for_response (lines 64-71) *)

Definition dht22_wait_for_response (polls : nat) (p : Z) : M Z :=
  r <- wait_for_pin_state polls p false DHT22_RESPONSE_WAIT_TIMEOUT ;;
  if negb (r =? 0) then ret DHT22_ERROR_TIMEOUT else
  r <- wait_for_pin_state polls p true DHT22_RESPONSE_WAIT_TIMEOUT ;;
  if negb (r =? 0) then ret DHT22_ERROR_TIMEOUT else
  r <- wait_for_pin_state polls p false DHT22_RESPONSE_WAIT_TIMEOUT ;;
  if negb (r =? 0) then ret DHT22_ERROR_TIMEOUT else
  ret DHT22_OK.

(** *** dht22_read_data (lines 74-93) *)

(** Line 86: the bit a high pulse of that length stands for. *)
Definition bit_of_pulse (pulse_length : Z) : bool :=
  pulse_length >? DHT22_BIT_THRESHOLD.

(** Line 87: [data[i / 8] |= (1 << (7 - (i % 8)))]. *)
Definition set_bit (data : list Z) (i : Z) : list Z :=
  upd data (Z.quot i 8)
      (u8 (Z.lor (ix data (Z.quot i 8)) (Z.shiftl 1 (7 - Z.rem i 8)))).

(** The [for] loop with [todo] iterations left, at index [i]. *)
Fixpoint dht22_read_data_from (polls : nat) (p : Z) (todo : nat) (i : Z)
  (data : list Z) : M (Z * list Z) :=
  match todo with
  | O => ret (DHT22_OK, data)
  | S todo' =>
      r <- wait_for_pin_state polls p true DHT22_RESPONSE_WAIT_TIMEOUT ;;
      if negb (r =? 0) then ret (DHT22_ERROR_TIMEOUT, data) else
      pulse_start <- time_us_32 ;;
      r <- wait_for_pin_state polls p false DHT22_RESPONSE_WAIT_TIMEOUT ;;
      if negb (r =? 0) then ret (DHT22_ERROR_TIMEOUT, data) else
      t <- time_us_32 ;;
      let pulse_length := sub32 t pulse_start in
      let data := if bit_of_pulse pulse_length then set_bit data i else data in
      dht22_read_data_from polls p todo' (i + 1) data
  end.

Definition dht22_read_data (polls : nat) (p : Z) (data : list Z)
  : M (Z * list Z) :=
  dht22_read_data_from polls p 40 0 data.

(** *** dht22_verify_checksum (lines 96-102) *)

Definition dht22_verify_checksum (data : list Z) : Z :=
  let checksum := u8 (ix data 0 + ix data 1 + ix data 2 + ix data 3) in
  if negb (checksum =? ix data 4) then DHT22_ERROR_CHECKSUM else DHT22_OK.

(** *** dht22_convert_data (lines 105-121) *)

(** The two cells [temperature] and [humidity] point to. *)
Record reading : Type := {
  temperature : spec_float;
  humidity : spec_float
}.

Definition dht22_convert_data (data : list Z) : Z * reading :=
  let humidity :=
    times_0_1 (Z.lor (Z.shiftl (ix data 0) 8) (ix data 1)) in
  let temperature :=
    times_0_1 (Z.lor (Z.shiftl (Z.land (ix data 2) 127) 8) (ix data 3)) in
  let temperature :=
    if negb (Z.land (ix data 2) 128 =? 0)
    then fmul temperature (float_of_int (-1))
    else temperature in
  let out := {| temperature := temperature; humidity := humidity |} in
  if SFltb (double_of_float humidity) lit_0_0
     || SFltb lit_100_0 (double_of_float humidity)
     || SFltb (double_of_float temperature) (SFopp lit_40_0)
     || SFltb lit_80_0 (double_of_float temperature)
  then (DHT22_ERROR_INVALID_DATA, out)
  else (DHT22_OK, out).

(** *** dht22_read (lines 124-160) *)

Definition dht22_read (polls : nat) (out : reading) : M (Z * reading) :=
  let data := [0; 0; 0; 0; 0] in
  s <- get_state ;;
  if negb (initialized s) then ret (DHT22_ERROR_NOT_INITIALIZED, out) else
  current_time <- to_ms_since_boot ;;
  s <- get_state ;;
  (if (sub32 current_time (last_read_time_ms s) <? DHT22_MIN_INTERVAL_MS)
      && negb (last_read_time_ms s =? 0)
   then sleep_ms (sub32 DHT22_MIN_INTERVAL_MS
                        (sub32 current_time (last_read_time_ms s)))
   else ret tt) ;;
  s <- get_state ;;
  result <- dht22_send_start_signal (pin s) ;;
  if negb (result =? DHT22_OK) then ret (result, out) else
  s <- get_state ;;
  result <- dht22_wait_for_response polls (pin s) ;;
  if negb (result =? DHT22_OK) then ret (result, out) else
  s <- get_state ;;
  '(result, data) <- dht22_read_data polls (pin s) data ;;
  if negb (result =? DHT22_OK) then ret (result, out) else
  now <- to_ms_since_boot ;;
  modify_state (set_last_read_time_ms now) ;;
  let result := dht22_verify_checksum data in
  if negb (result =? DHT22_OK) then ret (result, out) else
  ret (dht22_convert_data data).

End Driver.

(** ** Observations used to state the properties *)

(** The calls of [dht22_send_start_signal]. *)
Definition start_signal_calls (p : Z) : list hw_call :=
  [Gpio_set_dir p GPIO_OUT; Gpio_put p false;
   Sleep_us DHT22_START_SIGNAL_DELAY; Gpio_put p true; Sleep_us 30;
   Gpio_set_dir p GPIO_IN].

(** A call that only samples the line or a clock. *)
Definition is_query (c : hw_call) : bool :=
  match c with
  | Gpio_get _ _ | Time_us_32 _ | To_ms_since_boot _ => true
  | _ => false
  end.

(** Bit [i] of the payload as the buffer holds it: byte [i / 8], counted
    from the most significant bit. *)
Definition frame_bit (data : list Z) (i : Z) : bool :=
  Z.testbit (ix data (i / 8)) (7 - i mod 8).

(** What lines 86-88 do to the buffer for the pulses [ps] of the bits
    [i], [i + 1], ... *)
Fixpoint store_bits (i : Z) (ps : list Z) (data : list Z) : list Z :=
  match ps with
  | [] => data
  | pulse_length :: rest =>
      store_bits (i + 1) rest
        (if bit_of_pulse pulse_length then set_bit data i else data)
  end.

Section Observers.

Context (hw : platform).

(** The high-pulse lengths the loop of [dht22_read_data] measures (lines
    78-83 of each iteration), up to the end of the loop or the first edge
    timeout. *)
Fixpoint measured_pulses (polls : nat) (p : Z) (todo : nat) : M (list Z) :=
  match todo with
  | O => ret []
  | S todo' =>
      r <- wait_for_pin_state hw polls p true DHT22_RESPONSE_WAIT_TIMEOUT ;;
      if negb (r =? 0) then ret [] else
      pulse_start <- time_us_32 hw ;;
      r <- wait_for_pin_state hw polls p false DHT22_RESPONSE_WAIT_TIMEOUT ;;
      if negb (r =? 0) then ret [] else
      t <- time_us_32 hw ;;
      rest <- measured_pulses polls p todo' ;;
      ret (sub32 t pulse_start :: rest)
  end.

(** The part of [dht22_read] from the interval check to the end of the bit
    capture (lines 133-149): its status and the frame buffer. *)
Definition dht22_capture (polls : nat) : M (Z * list Z) :=
  let data := [0; 0; 0; 0; 0] in
  current_time <- to_ms_since_boot hw ;;
  s <- get_state ;;
  (if (sub32 current_time (last_read_time_ms s) <? DHT22_MIN_INTERVAL_MS)
      && negb (last_read_time_ms s =? 0)
   then sleep_ms (sub32 DHT22_MIN_INTERVAL_MS
                        (sub32 current_time (last_read_time_ms s)))
   else ret tt) ;;
  s <- get_state ;;
  result <- dht22_send_start_signal (pin s) ;;
  if negb (result =? DHT22_OK) then ret (result, data) else
  s <- get_state ;;
  result <- dht22_wait_for_response hw polls (pin s) ;;
  if negb (result =? DHT22_OK) then ret (result, data) else
  s <- get_state ;;
  dht22_read_data hw polls (pin s) data.

(** The rest of [dht22_read] (lines 151-159). *)
Definition dht22_finish (out : reading) (data : list Z) : M (Z * reading) :=
  now <- to_ms_since_boot hw ;;
  modify_state (set_last_read_time_ms now) ;;
  let result := dht22_verify_checksum data in
  if negb (result =? DHT22_OK) then ret (result, out) else
  ret (dht22_convert_data data).

End Observers.

(** The calls a read makes before it starts to listen: the interval check,
    the wait it may impose, and the start signal. *)
Definition opening_calls (hw : platform) (w : world) : list hw_call :=
  let s := dht22_state w in
  let now := u32 (millis hw (calls w)) in
  To_ms_since_boot now
  :: (if (sub32 now (last_read_time_ms s) <? DHT22_MIN_INTERVAL_MS)
         && negb (last_read_time_ms s =? 0)
      then [Sleep_ms (sub32 DHT22_MIN_INTERVAL_MS
                            (sub32 now (last_read_time_ms s)))]
      else [])
  ++ start_signal_calls (pin s).

Section EdgeWaits.

Context (hw : platform).

(** What each edge wait of [dht22_wait_for_response] returned, in order. *)
Definition handshake_waits (polls : nat) (p : Z) : M (list Z) :=
  r1 <- wait_for_pin_state hw polls p false DHT22_RESPONSE_WAIT_TIMEOUT ;;
  if negb (r1 =? 0) then ret [r1] else
  r2 <- wait_for_pin_state hw polls p true DHT22_RESPONSE_WAIT_TIMEOUT ;;
  if negb (r2 =? 0) then ret [r1; r2] else
  r3 <- wait_for_pin_state hw polls p false DHT22_RESPONSE_WAIT_TIMEOUT ;;
  ret [r1; r2; r3].

(** What each edge wait of the loop of [dht22_read_data] returned. *)
Fixpoint bit_waits (polls : nat) (p : Z) (todo : nat) : M (list Z) :=
  match todo with
  | O => ret []
  | S todo' =>
      r1 <- wait_for_pin_state hw polls p true DHT22_RESPONSE_WAIT_TIMEOUT ;;
      if negb (r1 =? 0) then ret [r1] else
      _ <- time_us_32 hw ;;
      r2 <- wait_for_pin_state hw polls p false DHT22_RESPONSE_WAIT_TIMEOUT ;;
      if negb (r2 =? 0) then ret [r1; r2] else
      _ <- time_us_32 hw ;;
      rest <- bit_waits polls p todo' ;;
      ret (r1 :: r2 :: rest)
  end.

(** What each edge wait of a read of an initialized driver returned. *)
Definition edge_waits (polls : nat) : M (list Z) :=
  current_time <- to_ms_since_boot hw ;;
  s <- get_state ;;
  (if (sub32 current_time (last_read_time_ms s) <? DHT22_MIN_INTERVAL_MS)
      && negb (last_read_time_ms s =? 0)
   then sleep_ms (sub32 DHT22_MIN_INTERVAL_MS
                        (sub32 current_time (last_read_time_ms s)))
   else ret tt) ;;
  s <- get_state ;;
  _ <- dht22_send_start_signal (pin s) ;;
  s <- get_state ;;
  hs <- handshake_waits polls (pin s) ;;
  if existsb (fun r => negb (r =? 0)) hs then ret hs else
  s <- get_state ;;
  bs <- bit_waits polls (pin s) 40 ;;
  ret (hs ++ bs).

End EdgeWaits.

(** A computation that leaves the driver state alone and only samples the
    line and the clocks. *)
Definition queries_only {A} (m : M A) : Prop :=
  forall w, exists ext,
    dht22_state (snd (m w)) = dht22_state w /\
    calls (snd (m w)) = calls w ++ ext /\
    forallb is_query ext = true.

(** A microsecond counter that moves on with every query, by at least one
    microsecond and by less than a quarter of its 32-bit range. *)
Definition ticking (hw : platform) : Prop :=
  forall tr c, is_query c = true ->
    micros hw tr + 1 <= micros hw (tr ++ [c]) <= micros hw tr + 2 ^ 30.

(** A computation that yields a value from every world. *)
Definition returns {A} (m : M A) : Prop :=
  forall w, exists a, fst (m w) = Some a.

(** A frame buffer: five bytes. *)
Definition frame_ok (data : list Z) : Prop :=
  length data = 5%nat /\ Forall is_u8 data.

(** ** Observations on the pin, the waits and the clocks *)

(** The direction pin [p] was last given, if any. *)
Definition direction_of (p : Z) (tr : list hw_call) : option bool :=
  fold_left
    (fun acc c =>
       match c with
       | Gpio_set_dir q out => if q =? p then Some out else acc
       | _ => acc
       end) tr None.

(** A call that names no pin other than [p]. *)
Definition on_pin (p : Z) (c : hw_call) : bool :=
  match c with
  | Gpio_init q | Gpio_set_pulls q _ _ | Gpio_set_dir q _ | Gpio_put q _
  | Gpio_get q _ => q =? p
  | _ => true
  end.

(** A query that names no pin other than [p]. *)
Definition listens_on (p : Z) (c : hw_call) : bool :=
  is_query c && on_pin p c.

(** A computation that leaves the driver state alone and only samples
    pin [p] and the clocks. *)
Definition listens_only {A} (p : Z) (m : M A) : Prop :=
  forall w, exists ext,
    dht22_state (snd (m w)) = dht22_state w /\
    calls (snd (m w)) = calls w ++ ext /\
    forallb (listens_on p) ext = true.

(** The calls of the iterations of the loop of [wait_for_pin_state] that
    found pin [p] away from [state] and then read the clock as [ts]. *)
Definition retry_calls (p : Z) (state : bool) (ts : list Z) : list hw_call :=
  flat_map (fun t => [Gpio_get p (negb state); Time_us_32 t]) ts.

(** A millisecond clock that does not go back over a query and that a
    [sleep_ms] moves on by at least the time asked for. *)
Definition wall_clock (hw : platform) : Prop :=
  (forall tr c, is_query c = true -> millis hw tr <= millis hw (tr ++ [c])) /\
  (forall tr ms, 0 <= ms ->
     millis hw tr + ms <= millis hw (tr ++ [Sleep_ms ms])).

(** The bits of a frame in the order the sensor sends them: byte after
    byte, most significant bit first. *)
Definition wire_bits (frame : list Z) : list bool :=
  flat_map (fun b => map (Z.testbit b) [7; 6; 5; 4; 3; 2; 1; 0]) frame.

(** ** The load-cell reader (hx711.h) *)

Module HX711.

(** Modelled from the spec: [hx711.c] is not among the sources; [hx711.h]
    only declares [scale_factor], [hx711_read], [calculate_weight] and
    [calibrate_hx711].  The two conversions below follow sections 4.3, 7
    and 9 of the specification: the scale factor is the raw reading
    divided by the reference weight, a zero or negative reference weight
    is rejected, the weight is the reading divided by the scale factor,
    and a zero scale factor is an error instead of a division.  The
    arguments have the types of the header ([int32_t], [float]); the
    global [scale_factor] is passed and returned. *)
Inductive hx711_result (A : Type) : Type :=
| Hx_ok (a : A)
| Hx_rejected.
Arguments Hx_ok {A} a.
Arguments Hx_rejected {A}.

Definition scale_factor_initial : spec_float := S754_zero false.

(** Modelled from the spec: [calibrate(known_weight_reading, actual_weight)]
    of section 4.3; the result is the outcome and the scale factor
    afterwards. *)
Definition calibrate_hx711 (known_weight_reading : Z)
  (actual_weight scale_factor : spec_float)
  : hx711_result unit * spec_float :=
  if SFleb actual_weight (S754_zero false)
  then (Hx_rejected, scale_factor)
  else (Hx_ok tt, fdiv (float_of_int known_weight_reading) actual_weight).

(** Modelled from the spec: [calculate_weight(reading)] of section 4.3. *)
Definition calculate_weight (reading : Z) (scale_factor : spec_float)
  : hx711_result spec_float :=
  if SFeqb scale_factor (S754_zero false)
  then Hx_rejected
  else Hx_ok (fdiv (float_of_int reading) scale_factor).

(** A reference weight that is zero or below. *)
Definition zero_or_negative (x : spec_float) : Prop :=
  match x with
  | S754_zero _ => True
  | S754_finite s _ _ => s = true
  | S754_infinity s => s = true
  | S754_nan => False
  end.

Definition is_zero (x : spec_float) : Prop :=
  match x with
  | S754_zero _ => True
  | _ => False
  end.

End HX711.

(** ** A simulated sensor *)

Module Sim.

(** Time each call takes, in microseconds. *)
Definition call_cost (c : hw_call) : Z :=
  match c with
  | Sleep_us us => us
  | Sleep_ms ms => 1000 * ms
  | Gpio_get _ _ => 7
  | _ => 1
  end.

Definition elapsed_us (tr : list hw_call) : Z :=
  fold_left (fun acc c => acc + call_cost c) tr 0.

(** Time since the host last released pin [p] to the sensor, if it is
    released. *)
Definition since_release (p : Z) (tr : list hw_call) : option Z :=
  fold_left
    (fun acc c =>
       match c with
       | Gpio_set_dir q out =>
           if q =? p then (if out then None else Some 0)
           else option_map (Z.add (call_cost c)) acc
       | _ => option_map (Z.add (call_cost c)) acc
       end) tr None.

(** The level of a line that goes through [segments] and then idles high. *)
Fixpoint wave_level (segments : list (Z * bool)) (t : Z) : bool :=
  match segments with
  | [] => true
  | (d, l) :: rest => if t <? d then l else wave_level rest (t - d)
  end.

Definition bits_of_byte (b : Z) : list bool :=
  map (Z.testbit b) [7; 6; 5; 4; 3; 2; 1; 0].

(** The answer of a DHT22 to a start signal: 80 us low, 80 us high, then
    for each bit 50 us low and 26 us (a 0) or 70 us (a 1) high. *)
Definition waveform (frame : list Z) : list (Z * bool) :=
  (30, true) :: (80, false) :: (80, true)
  :: flat_map (fun bit : bool => [(50, false); (if bit then 70 else 26, true)])
       (flat_map bits_of_byte frame)
  ++ [(50, false)].

(** A board whose 64-bit microsecond counter reads [boot_us] at the first
    call, with a sensor that answers each start signal with [wave]. *)
Definition sensor (boot_us : Z) (wave : list (Z * bool)) : platform :=
  {| level := fun tr p =>
       match since_release p tr with
       | Some t => wave_level wave t
       | None => true
       end;
     micros := fun tr => boot_us + elapsed_us tr;
     millis := fun tr => (boot_us + elapsed_us tr) / 1000 |}.

(** No sensor on the line: the pull-up keeps it high. *)
Definition unplugged (boot_us : Z) : platform := sensor boot_us [].

Definition boot : world :=
  {| dht22_state := dht22_state_initial; calls := [] |}.

Definition ready (p last : Z) : world :=
  {| dht22_state :=
       {| last_read_time_ms := last; pin := p; initialized := true |};
     calls := [] |}.

(** The world after [dht22_init(p)] at boot. *)
Definition after_init (p : Z) : world := snd (dht22_init p boot).

Definition no_reading : reading :=
  {| temperature := S754_zero false; humidity := S754_zero false |}.

(** 50.0 % at 20.0 C, with its checksum. *)
Definition frame_mild : list Z := [1; 244; 0; 200; 189].

(** 50.0 % at -20.0 C with a wrong checksum byte (61 is right). *)
Definition frame_corrupt : list Z := [1; 244; 128; 200; 62].

(** 150.0 % at 20.0 C, with its checksum. *)
Definition frame_humid : list Z := [5; 220; 0; 200; 169].

(** The world in which the bit capture starts when [frame] is read on pin
    [p] after [after_init]: the start signal is sent and the sensor's
    response has been seen. *)
Definition listening (frame : list Z) (p : Z) : world :=
  snd (dht22_wait_for_response (sensor 5000000 (waveform frame)) 40 p
         (snd (dht22_send_start_signal p (after_init p)))).

Definition mild : platform := sensor 5000000 (waveform frame_mild).

(** A first read of [frame_mild], five seconds after boot, and the world
    after it. *)
Definition first_read : option (Z * reading) * world :=
  dht22_read mild 40 no_reading (after_init 15).
Definition after_first_read : world := snd first_read.

(** A boot time at which the 32-bit millisecond counter wraps to 0 just as
    a first read of [frame_mild] after [after_init] ends its capture
    (about 49.7 days of uptime). *)
Definition wrap_boot_us : Z := 4294967296000 - 21941.

Definition wrapping : platform := sensor wrap_boot_us (waveform frame_mild).

(** That first read, and the world after it. *)
Definition wrapping_read : option (Z * reading) * world :=
  dht22_read wrapping 40 no_reading (after_init 15).
Definition after_wrapping_read : world := snd wrapping_read.

End Sim.

(** A line shorted to ground, on a board whose clocks advance by one
    microsecond at each call. *)
Definition held_low : platform :=
  {| level := fun _ _ => false;
     micros := fun tr => Z.of_nat (length tr);
     millis := fun tr => Z.of_nat (length tr) / 1000 |}.

(** * Properties of the computations *)

Lemma queries_ret {A} (a : A) : queries_only (ret a).
Proof. intros w. exists []. cbn. rewrite app_nil_r. auto. Qed.

Lemma queries_spin {A} : queries_only (@spin A).
Proof. intros w. exists []. cbn. rewrite app_nil_r. auto. Qed.

Lemma queries_bind {A B} (m : M A) (k : A -> M B) :
  queries_only m -> (forall a, queries_only (k a)) -> queries_only (bind m k).
Proof.
  intros Hm Hk w. unfold bind.
  destruct (Hm w) as (e1 & S1 & C1 & Q1).
  destruct (m w) as [[a|] w1]; cbn [snd] in *.
  - destruct (Hk a w1) as (e2 & S2 & C2 & Q2).
    exists (e1 ++ e2).
    rewrite S2, S1, C2, C1, app_assoc, forallb_app, Q1, Q2. auto.
  - exists e1. auto.
Qed.

Lemma queries_gpio_get hw p : queries_only (gpio_get hw p).
Proof. intros w. eexists. cbn. repeat split. Qed.

Lemma queries_time_us_32 hw : queries_only (time_us_32 hw).
Proof. intros w. eexists. cbn. repeat split. Qed.

Lemma queries_to_ms_since_boot hw : queries_only (to_ms_since_boot hw).
Proof. intros w. eexists. cbn. repeat split. Qed.

Create HintDb queries.
#[local] Hint Resolve queries_ret queries_spin queries_gpio_get
  queries_time_us_32 queries_to_ms_since_boot : queries.

Ltac queries_step :=
  first [ solve [ auto with queries ]
        | match goal with
          | |- queries_only (if ?c then _ else _) => destruct c
          | |- queries_only (match ?x with (_, _) => _ end) => destruct x
          | |- queries_only (bind _ _) => apply queries_bind; [| intros ? ]
          end ].

Lemma queries_wait_loop hw polls p state timeout_us start :
  queries_only (wait_loop hw polls p state timeout_us start).
Proof.
  induction polls as [|polls IH]; cbn [wait_loop]; repeat queries_step.
Qed.

Lemma queries_wait_for_pin_state hw polls p state timeout_us :
  queries_only (wait_for_pin_state hw polls p state timeout_us).
Proof.
  unfold wait_for_pin_state. repeat queries_step. apply queries_wait_loop.
Qed.
#[local] Hint Resolve queries_wait_for_pin_state : queries.

Lemma queries_dht22_wait_for_response hw polls p :
  queries_only (dht22_wait_for_response hw polls p).
Proof. unfold dht22_wait_for_response. repeat queries_step. Qed.

Lemma queries_dht22_read_data_from hw polls p todo :
  forall i data, queries_only (dht22_read_data_from hw polls p todo i data).
Proof.
  induction todo as [|todo IH]; intros i data; cbn [dht22_read_data_from];
    repeat queries_step.
Qed.

Lemma dht22_read_data_unfold hw polls p data w :
  dht22_read_data hw polls p data w
  = dht22_read_data_from hw polls p 40 0 data w.
Proof. unfold dht22_read_data. reflexivity. Qed.

Lemma queries_dht22_read_data hw polls p data :
  queries_only (dht22_read_data hw polls p data).
Proof. apply queries_dht22_read_data_from. Qed.
#[local] Hint Resolve queries_dht22_wait_for_response queries_dht22_read_data
  : queries.

(** ** Status codes *)

Lemma wait_loop_result hw polls p state timeout_us start w r :
  fst (wait_loop hw polls p state timeout_us start w) = Some r ->
  r = 0 \/ r = -1.
Proof.
  revert w. induction polls as [|polls IH]; intros w; cbn [wait_loop].
  - discriminate.
  - unfold bind. cbn [gpio_get].
    destruct (Bool.eqb _ state).
    + cbn. intros [= <-]. auto.
    + cbn [time_us_32]. destruct (_ >? timeout_us).
      * cbn. intros [= <-]. auto.
      * apply IH.
Qed.

Lemma wait_for_pin_state_result hw polls p state timeout_us w r :
  fst (wait_for_pin_state hw polls p state timeout_us w) = Some r ->
  r = 0 \/ r = -1.
Proof.
  unfold wait_for_pin_state, bind. cbn [time_us_32]. apply wait_loop_result.
Qed.

Lemma dht22_wait_for_response_result hw polls p w r :
  fst (dht22_wait_for_response hw polls p w) = Some r ->
  r = DHT22_OK \/ r = DHT22_ERROR_TIMEOUT.
Proof.
  unfold dht22_wait_for_response, bind.
  repeat match goal with
  | |- context [wait_for_pin_state ?h ?n ?q ?s ?t ?v] =>
      destruct (wait_for_pin_state h n q s t v) as [[?r|] ?w];
      [ destruct (negb (_ =? 0)) |]
  end; cbn; intros [= <-] || discriminate; auto.
Qed.

Lemma dht22_read_data_from_result hw polls p todo :
  forall i data w r data',
    fst (dht22_read_data_from hw polls p todo i data w) = Some (r, data') ->
    r = DHT22_OK \/ r = DHT22_ERROR_TIMEOUT.
Proof.
  induction todo as [|todo IH]; intros i data w r data';
    cbn [dht22_read_data_from].
  - cbn. intros [= <- _]. auto.
  - unfold bind.
    destruct (wait_for_pin_state hw polls p true _ w) as [[r1|] w1];
      [| discriminate].
    destruct (negb (r1 =? 0)); [cbn; intros [= <- _]; auto |].
    cbn [time_us_32].
    destruct (wait_for_pin_state hw polls p false _ _) as [[r2|] w2];
      [| discriminate].
    destruct (negb (r2 =? 0)); [cbn; intros [= <- _]; auto |].
    apply IH.
Qed.

(** ** The bits the capture loop stores *)

(** The loop stores exactly the bits of the pulses it measures. *)
Lemma dht22_read_data_from_pulses hw polls p todo :
  forall i data w,
    match dht22_read_data_from hw polls p todo i data w with
    | (Some (r, data'), w') =>
        exists ps,
          measured_pulses hw polls p todo w = (Some ps, w') /\
          data' = store_bits i ps data /\
          (length ps <= todo)%nat /\
          (r = DHT22_OK <-> length ps = todo)
    | (None, w') => measured_pulses hw polls p todo w = (None, w')
    end.
Proof.
  induction todo as [|todo IH]; intros i data w;
    cbn [dht22_read_data_from measured_pulses].
  - cbn. exists []. cbn. intuition.
  - unfold bind.
    destruct (wait_for_pin_state hw polls p true _ w) as [[r1|] w1];
      [| reflexivity].
    destruct (negb (r1 =? 0)).
    { cbn. exists []. cbn. intuition (try discriminate; lia). }
    cbn [time_us_32].
    destruct (wait_for_pin_state hw polls p false _ _) as [[r2|] w2];
      [| reflexivity].
    destruct (negb (r2 =? 0)).
    { cbn. exists []. cbn. intuition (try discriminate; lia). }
    match goal with
    | |- context [dht22_read_data_from hw polls p todo ?j ?d ?v] =>
        specialize (IH j d v);
        destruct (dht22_read_data_from hw polls p todo j d v)
          as [[[r d']|] w3]
    end.
    + destruct IH as (ps & Hm & Hd & Hl & Hr). rewrite Hm.
      eexists. split; [reflexivity|]. cbn [store_bits length].
      split; [exact Hd|]. split; [lia|]. rewrite Hr. lia.
    + rewrite IH. reflexivity.
Qed.

(** ** The frame buffer *)

Lemma length_upd_nat data n v : length (upd_nat data n v) = length data.
Proof.
  revert n. induction data as [|x data IH]; intros [|n]; cbn; auto.
Qed.

Lemma nth_upd_nat data n k v :
  (n < length data)%nat ->
  nth k (upd_nat data n v) 0 = if Nat.eqb n k then v else nth k data 0.
Proof.
  revert n k. induction data as [|x data IH]; intros [|n] [|k] H;
    cbn in *; try lia; auto.
  apply IH. lia.
Qed.

Lemma Forall_upd_nat data n v :
  is_u8 v -> Forall is_u8 data -> Forall is_u8 (upd_nat data n v).
Proof.
  intros Hv. revert n. induction data as [|x data IH]; intros [|n] H;
    cbn; auto; inversion H; subst; constructor; auto.
Qed.

Lemma ix_upd data a b v :
  0 <= a -> 0 <= b -> (Z.to_nat a < length data)%nat ->
  ix (upd data a v) b = if a =? b then v else ix data b.
Proof.
  intros Ha Hb Hl. unfold ix, upd. rewrite nth_upd_nat by exact Hl.
  destruct (Z.eqb_spec a b) as [-> | Hne].
  - rewrite Nat.eqb_refl. reflexivity.
  - destruct (Nat.eqb_spec (Z.to_nat a) (Z.to_nat b)); [lia | reflexivity].
Qed.

Lemma u8_range x : is_u8 (u8 x).
Proof. unfold is_u8, u8. apply Z.mod_pos_bound. lia. Qed.

Lemma frame_ok_set_bit data i : frame_ok data -> frame_ok (set_bit data i).
Proof.
  intros [Hl Hf]. unfold set_bit, upd. split.
  - rewrite length_upd_nat. exact Hl.
  - apply Forall_upd_nat; [apply u8_range | exact Hf].
Qed.

Lemma frame_ok_store_bits ps :
  forall i data, frame_ok data -> frame_ok (store_bits i ps data).
Proof.
  induction ps as [|len ps IH]; intros i data H; cbn [store_bits]; auto.
  apply IH. destruct (bit_of_pulse len); auto using frame_ok_set_bit.
Qed.

Lemma frame_ok_zero : frame_ok [0; 0; 0; 0; 0].
Proof. split; [reflexivity|]. repeat constructor; unfold is_u8; lia. Qed.

Lemma frame_ok_ix data k : frame_ok data -> is_u8 (ix data k).
Proof.
  intros [Hl Hf]. unfold ix.
  destruct (Nat.lt_ge_cases (Z.to_nat k) (length data)) as [H | H].
  - rewrite Forall_forall in Hf. apply Hf, nth_In, H.
  - rewrite nth_overflow by exact H. unfold is_u8. lia.
Qed.

Lemma testbit_one_shifted s k :
  0 <= s -> 0 <= k -> Z.testbit (Z.shiftl 1 s) k = (k =? s).
Proof.
  intros Hs Hk. rewrite Z.shiftl_spec by exact Hk.
  destruct (Z.eqb_spec k s) as [-> | Hne].
  - rewrite Z.sub_diag. reflexivity.
  - destruct (k - s) as [| q | q] eqn:E; try lia; reflexivity.
Qed.

Lemma frame_bit_set_bit data i j :
  frame_ok data -> 0 <= i < 40 -> 0 <= j < 40 ->
  frame_bit (set_bit data i) j = (j =? i) || frame_bit data j.
Proof.
  intros [Hl Hf] Hi Hj. unfold frame_bit, set_bit.
  rewrite Z.quot_div_nonneg, Z.rem_mod_nonneg by lia.
  pose proof (Z.div_mod i 8 ltac:(lia)) as Di.
  pose proof (Z.div_mod j 8 ltac:(lia)) as Dj.
  pose proof (Z.mod_pos_bound i 8 ltac:(lia)) as Mi.
  pose proof (Z.mod_pos_bound j 8 ltac:(lia)) as Mj.
  assert (0 <= i / 8 < 5)
    by (split; [apply Z.div_pos | apply Z.div_lt_upper_bound]; lia).
  assert (0 <= j / 8 < 5)
    by (split; [apply Z.div_pos | apply Z.div_lt_upper_bound]; lia).
  rewrite ix_upd by lia.
  destruct (Z.eqb_spec (i / 8) (j / 8)) as [E | NE].
  - unfold u8. change 256 with (2 ^ 8).
    rewrite Z.mod_pow2_bits_low by lia.
    rewrite Z.lor_spec, testbit_one_shifted by lia.
    rewrite E, orb_comm. f_equal.
    destruct (Z.eqb_spec (7 - j mod 8) (7 - i mod 8));
      destruct (Z.eqb_spec j i); try reflexivity; lia.
  - destruct (Z.eqb_spec j i) as [-> | _]; [congruence | reflexivity].
Qed.

Lemma frame_bit_store_bits ps :
  forall i data j,
    frame_ok data -> 0 <= i -> i + Z.of_nat (length ps) <= 40 ->
    0 <= j < 40 ->
    frame_bit (store_bits i ps data) j
    = ((i <=? j) && (j <? i + Z.of_nat (length ps))
       && bit_of_pulse (nth (Z.to_nat (j - i)) ps 0))
      || frame_bit data j.
Proof.
  induction ps as [|len ps IH]; intros i data j Hok Hi Hlen Hj;
    cbn [store_bits length] in *.
  - replace (j <? i + Z.of_nat 0) with (negb (i <=? j)) by
      (destruct (Z.leb_spec i j), (Z.ltb_spec j (i + Z.of_nat 0)); cbn; lia).
    rewrite andb_negb_r. reflexivity.
  - rewrite IH by
      (try (destruct (bit_of_pulse len); auto using frame_ok_set_bit); lia).
    destruct (Z.eqb_spec j i) as [-> | Hne].
    + replace (i + 1 <=? i) with false by (symmetry; apply Z.leb_gt; lia).
      rewrite Z.leb_refl, Z.sub_diag.
      replace (i <? i + Z.of_nat (S (length ps))) with true
        by (symmetry; apply Z.ltb_lt; lia).
      cbn [andb orb nth Z.to_nat].
      destruct (bit_of_pulse len); [| reflexivity].
      rewrite frame_bit_set_bit by (auto; lia).
      rewrite Z.eqb_refl. reflexivity.
    + assert (Hbit : frame_bit
                (if bit_of_pulse len then set_bit data i else data) j
              = frame_bit data j).
      { destruct (bit_of_pulse len); [| reflexivity].
        rewrite frame_bit_set_bit by (auto; lia).
        destruct (Z.eqb_spec j i); [lia | reflexivity]. }
      rewrite Hbit. f_equal.
      destruct (Z.leb_spec (i + 1) j) as [L | L].
      * replace (i <=? j) with true by (symmetry; apply Z.leb_le; lia).
        replace (j - i) with (Z.succ (j - (i + 1))) by lia.
        rewrite Z2Nat.inj_succ by lia. cbn [nth andb].
        f_equal. f_equal. lia.
      * replace (i <=? j) with false by (symmetry; apply Z.leb_gt; lia).
        reflexivity.
Qed.

Lemma frame_bit_zero j : frame_bit [0; 0; 0; 0; 0] j = false.
Proof.
  unfold frame_bit, ix.
  destruct (Z.to_nat (j / 8)) as [|[|[|[|[|[|n]]]]]]; cbn [nth];
    apply Z.testbit_0_l.
Qed.

(** ** The structure of a read *)

(** A read is the initialization check, the capture, and the rest. *)
Lemma dht22_read_unfold hw polls out w :
  dht22_read hw polls out w
  = if negb (initialized (dht22_state w))
    then (Some (DHT22_ERROR_NOT_INITIALIZED, out), w)
    else match dht22_capture hw polls w with
         | (Some (result, data), w1) =>
             if negb (result =? DHT22_OK) then (Some (result, out), w1)
             else dht22_finish hw out data w1
         | (None, w1) => (None, w1)
         end.
Proof.
  unfold dht22_read, dht22_capture, dht22_finish, bind, get_state, ret.
  destruct (negb (initialized (dht22_state w))); [reflexivity|].
  cbn [to_ms_since_boot dht22_state calls].
  match goal with
  | |- context [if ?c then sleep_ms ?d else _] => destruct c
  end; cbn [sleep_ms record_call dht22_state calls fst snd];
  unfold dht22_send_start_signal, bind, ret, gpio_set_dir, gpio_put, sleep_us,
    record_call; change (negb (DHT22_OK =? DHT22_OK)) with false;
  cbn [dht22_state calls];
  match goal with
  | |- context [dht22_wait_for_response hw polls ?q ?v] =>
      destruct (dht22_wait_for_response hw polls q v) as [[r|] w1]
  end; try reflexivity;
  (destruct (negb (r =? DHT22_OK)) eqn:E; [cbv iota; rewrite E; reflexivity|]);
  match goal with
  | |- context [dht22_read_data hw polls ?q ?d ?v] =>
      destruct (dht22_read_data hw polls q d v) as [[[r2 d2]|] w2]
  end; try reflexivity;
  destruct (negb (r2 =? DHT22_OK)); reflexivity.
Qed.

(** The capture leaves the driver state alone; after its opening calls it
    only queries. *)
Lemma dht22_capture_calls hw polls w :
  exists rest,
    dht22_state (snd (dht22_capture hw polls w)) = dht22_state w /\
    calls (snd (dht22_capture hw polls w))
    = calls w ++ opening_calls hw w ++ rest /\
    forallb is_query rest = true.
Proof.
  unfold dht22_capture, opening_calls, bind, get_state, ret.
  cbn [to_ms_since_boot dht22_state calls].
  set (now := u32 (millis hw (calls w))).
  set (s := dht22_state w).
  match goal with
  | |- context [if ?c then sleep_ms ?d else _] => destruct c
  end; cbn [sleep_ms record_call dht22_state calls fst snd];
  unfold dht22_send_start_signal, bind, ret, gpio_set_dir, gpio_put, sleep_us,
    record_call; change (negb (DHT22_OK =? DHT22_OK)) with false;
  cbn [dht22_state calls];
  match goal with
  | |- context [dht22_wait_for_response hw polls ?q ?v] =>
      destruct (queries_dht22_wait_for_response hw polls q v)
        as (e1 & S1 & C1 & Q1);
      destruct (dht22_wait_for_response hw polls q v) as [[r|] w1]
  end; cbn [fst snd dht22_state calls] in *;
  try (exists e1; rewrite S1, C1; unfold start_signal_calls;
       repeat rewrite <- app_assoc; cbn [app]; auto);
  (destruct (negb (r =? DHT22_OK));
   [ exists e1; cbn [snd]; rewrite S1, C1; unfold start_signal_calls;
     repeat rewrite <- app_assoc; cbn [app]; auto |]);
  match goal with
  | |- context [dht22_read_data hw polls ?q ?d ?v] =>
      destruct (queries_dht22_read_data hw polls q d v)
        as (e2 & S2 & C2 & Q2)
  end;
  exists (e1 ++ e2); rewrite S2, C2, S1, C1, forallb_app, Q1, Q2;
  unfold start_signal_calls; repeat rewrite <- app_assoc; cbn [app]; auto.
Qed.

Lemma dht22_capture_result hw polls w r data :
  fst (dht22_capture hw polls w) = Some (r, data) ->
  (r = DHT22_OK \/ r = DHT22_ERROR_TIMEOUT) /\ frame_ok data.
Proof.
  unfold dht22_capture, bind, get_state, ret.
  cbn [to_ms_since_boot dht22_state calls].
  match goal with
  | |- context [if ?c then sleep_ms ?d else _] => destruct c
  end; cbn [sleep_ms record_call dht22_state calls fst snd];
  unfold dht22_send_start_signal, bind, ret, gpio_set_dir, gpio_put, sleep_us,
    record_call; change (negb (DHT22_OK =? DHT22_OK)) with false;
  cbn [dht22_state calls];
  match goal with
  | |- context [dht22_wait_for_response hw polls ?q ?v] =>
      pose proof (dht22_wait_for_response_result hw polls q v) as R1;
      destruct (dht22_wait_for_response hw polls q v) as [[r1|] w1]
  end; try discriminate;
  (destruct (negb (r1 =? DHT22_OK));
   [ cbn; intros [= <- <-];
     split; [apply R1; reflexivity | apply frame_ok_zero] |]);
  cbv beta iota; rewrite dht22_read_data_unfold;
  match goal with
  | |- context [dht22_read_data_from hw polls ?q ?n ?i ?d ?v] =>
      pose proof (dht22_read_data_from_result hw polls q n i d v) as R2;
      pose proof (dht22_read_data_from_pulses hw polls q n i d v) as P2;
      destruct (dht22_read_data_from hw polls q n i d v) as [[[r2 d2]|] w2]
  end; try discriminate;
  cbn; intros [= <- <-]; (split; [eapply R2; reflexivity |]);
  destruct P2 as (ps & _ & -> & _); apply frame_ok_store_bits, frame_ok_zero.
Qed.

(** ** Edge waits *)

Lemma dht22_wait_for_response_waits hw polls p w :
  match dht22_wait_for_response hw polls p w with
  | (Some r, w') =>
      exists rs,
        handshake_waits hw polls p w = (Some rs, w') /\
        (r = DHT22_ERROR_TIMEOUT <-> In (-1) rs) /\
        (r = DHT22_OK <-> existsb (fun r => negb (r =? 0)) rs = false)
  | (None, w') => handshake_waits hw polls p w = (None, w')
  end.
Proof.
  unfold dht22_wait_for_response, handshake_waits, bind.
  repeat match goal with
  | |- context [wait_for_pin_state ?h ?n ?q ?s ?t ?v] =>
      pose proof (wait_for_pin_state_result h n q s t v) as ?R;
      destruct (wait_for_pin_state h n q s t v) as [[?r|] ?w];
      [ cbn [fst] in *;
        match goal with
        | R : forall r', Some ?x = Some r' -> _ |- _ =>
            destruct (R x eq_refl) as [-> | ->]; clear R
        end; cbn [negb Z.eqb]
      | try reflexivity ]
  end; cbn [ret];
  (eexists; split; [reflexivity|]; cbn; unfold DHT22_OK, DHT22_ERROR_TIMEOUT;
   intuition (try discriminate; try lia)).
Qed.

Lemma dht22_read_data_from_waits hw polls p todo :
  forall i data w,
    match dht22_read_data_from hw polls p todo i data w with
    | (Some (r, _), w') =>
        exists rs,
          bit_waits hw polls p todo w = (Some rs, w') /\
          (r = DHT22_ERROR_TIMEOUT <-> In (-1) rs)
    | (None, w') => bit_waits hw polls p todo w = (None, w')
    end.
Proof.
  induction todo as [|todo IH]; intros i data w;
    cbn [dht22_read_data_from bit_waits].
  - cbn. exists []. cbn. unfold DHT22_OK, DHT22_ERROR_TIMEOUT.
    intuition discriminate.
  - unfold bind.
    pose proof (wait_for_pin_state_result hw polls p true
                  DHT22_RESPONSE_WAIT_TIMEOUT w) as R1.
    destruct (wait_for_pin_state hw polls p true _ w) as [[r1|] w1];
      [| reflexivity].
    destruct (R1 r1 eq_refl) as [-> | ->]; clear R1; cbn [negb Z.eqb].
    2:{ cbn. exists [-1]. cbn. intuition. }
    cbn [time_us_32].
    match goal with
    | |- context [wait_for_pin_state hw polls p false ?t ?v] =>
        pose proof (wait_for_pin_state_result hw polls p false t v) as R2;
        destruct (wait_for_pin_state hw polls p false t v) as [[r2|] w2];
          [| reflexivity]
    end.
    destruct (R2 r2 eq_refl) as [-> | ->]; clear R2; cbn [negb Z.eqb].
    2:{ cbn. exists [0; -1]. cbn. intuition. }
    match goal with
    | |- context [dht22_read_data_from hw polls p todo ?j ?d ?v] =>
        specialize (IH j d v);
        destruct (dht22_read_data_from hw polls p todo j d v)
          as [[[r d']|] w3]
    end.
    + destruct IH as (rs & Hm & Hr). rewrite Hm.
      eexists. split; [reflexivity|]. rewrite Hr. cbn. intuition lia.
    + rewrite IH. reflexivity.
Qed.

Lemma dht22_capture_waits hw polls w :
  match dht22_capture hw polls w with
  | (Some (r, _), w') =>
      exists rs,
        edge_waits hw polls w = (Some rs, w') /\
        (r = DHT22_ERROR_TIMEOUT <-> In (-1) rs)
  | (None, w') => edge_waits hw polls w = (None, w')
  end.
Proof.
  unfold dht22_capture, edge_waits, bind, get_state, ret.
  cbn [to_ms_since_boot dht22_state calls].
  match goal with
  | |- context [if ?c then sleep_ms ?d else _] => destruct c
  end; cbn [sleep_ms record_call dht22_state calls fst snd];
  unfold dht22_send_start_signal, bind, ret, gpio_set_dir, gpio_put, sleep_us,
    record_call; change (negb (DHT22_OK =? DHT22_OK)) with false;
  cbn [dht22_state calls];
  match goal with
  | |- context [dht22_wait_for_response hw polls ?q ?v] =>
      pose proof (dht22_wait_for_response_waits hw polls q v) as H1;
      pose proof (dht22_wait_for_response_result hw polls q v) as R1;
      destruct (dht22_wait_for_response hw polls q v) as [[r1|] w1]
  end;
  try (rewrite H1; reflexivity);
  destruct H1 as (hs & -> & Ht & Hok);
  (destruct (R1 r1 eq_refl) as [-> | ->]; clear R1;
   [ rewrite (proj1 Hok eq_refl);
     change (negb (DHT22_OK =? DHT22_OK)) with false; cbv iota
   | destruct (existsb _ hs) eqn:E;
     [| exfalso; pose proof (proj2 Hok eq_refl); discriminate ];
     cbn; exists hs; split; [reflexivity | exact Ht] ]);
  cbv beta iota; rewrite dht22_read_data_unfold;
  match goal with
  | |- context [dht22_read_data_from hw polls ?q ?n ?i ?d ?v] =>
      pose proof (dht22_read_data_from_waits hw polls q n i d v) as H2;
      destruct (dht22_read_data_from hw polls q n i d v) as [[[r2 d2]|] w2]
  end;
  try (rewrite H2; reflexivity);
  destruct H2 as (bs & -> & Hb); exists (hs ++ bs);
  (split; [reflexivity |]); rewrite in_app_iff, Hb;
  assert (~ In (-1) hs) by (intros HI; apply Ht in HI; discriminate);
  tauto.
Qed.

(** A wait gives up only on a clock reading past its bound, taken just
    after the pin was seen at the other level. *)
Lemma wait_loop_exceeded hw polls p state timeout_us start :
  forall w,
    fst (wait_loop hw polls p state timeout_us start w) = Some (-1) ->
    exists mid now,
      calls (snd (wait_loop hw polls p state timeout_us start w))
      = calls w ++ mid ++ [Gpio_get p (negb state); Time_us_32 now] /\
      timeout_us < sub32 now start.
Proof.
  induction polls as [|polls IH]; intros w; cbn [wait_loop].
  - discriminate.
  - unfold bind. cbn [gpio_get].
    destruct (Bool.eqb _ state) eqn:E; [discriminate|].
    cbn [time_us_32 calls dht22_state].
    match goal with
    | |- context [?a >? timeout_us] =>
        destruct (Z.gtb_spec a timeout_us) as [Hgt | Hle]
    end.
    + intros _.
      exists [],
        (u32 (micros hw (calls w ++ [Gpio_get p (level hw (calls w) p)]))).
      assert (Hb : negb state = level hw (calls w) p).
      { revert E. destruct (level hw (calls w) p), state; cbn; congruence. }
      cbn [snd ret calls app]. rewrite Hb, <- app_assoc.
      split; [reflexivity | lia].
    + intros Hr. destruct (IH _ Hr) as (mid & now & Hc & Hn).
      cbn [calls] in Hc. rewrite Hc.
      eexists (_ :: _ :: mid), now. rewrite <- !app_assoc. cbn [app].
      split; [reflexivity | exact Hn].
Qed.

Lemma wait_for_pin_state_exceeded hw polls p state timeout_us w :
  fst (wait_for_pin_state hw polls p state timeout_us w) = Some (-1) ->
  exists start mid now,
    calls (snd (wait_for_pin_state hw polls p state timeout_us w))
    = calls w ++ Time_us_32 start :: mid
              ++ [Gpio_get p (negb state); Time_us_32 now] /\
    timeout_us < sub32 now start.
Proof.
  unfold wait_for_pin_state, bind. cbn [time_us_32]. intros H.
  destruct (wait_loop_exceeded _ _ _ _ _ _ _ H) as (mid & now & Hc & Hn).
  cbn [calls] in Hc. exists (u32 (micros hw (calls w))), mid, now.
  rewrite Hc, <- app_assoc. cbn [app]. auto.
Qed.

(** ** Checksum and the end of a read *)

Lemma dht22_verify_checksum_result data :
  dht22_verify_checksum data = DHT22_OK \/
  dht22_verify_checksum data = DHT22_ERROR_CHECKSUM.
Proof.
  unfold dht22_verify_checksum. destruct (negb _); auto.
Qed.

Lemma dht22_finish_run hw out data w :
  dht22_finish hw out data w
  = (Some (if negb (dht22_verify_checksum data =? DHT22_OK)
           then (dht22_verify_checksum data, out)
           else dht22_convert_data data),
     {| dht22_state :=
          set_last_read_time_ms (u32 (millis hw (calls w))) (dht22_state w);
        calls := calls w ++ [To_ms_since_boot (u32 (millis hw (calls w)))] |}).
Proof.
  unfold dht22_finish, bind, to_ms_since_boot, modify_state, ret.
  cbn [dht22_state calls]. destruct (negb _); reflexivity.
Qed.

Lemma dht22_read_calls hw polls out w :
  initialized (dht22_state w) = true ->
  exists rest,
    calls (snd (dht22_read hw polls out w))
    = calls w ++ opening_calls hw w ++ rest /\
    forallb is_query rest = true /\
    initialized (dht22_state (snd (dht22_read hw polls out w))) = true /\
    pin (dht22_state (snd (dht22_read hw polls out w)))
    = pin (dht22_state w).
Proof.
  intros Hi. rewrite dht22_read_unfold, Hi. cbn [negb].
  destruct (dht22_capture_calls hw polls w) as (rest & S1 & C1 & Q1).
  destruct (dht22_capture hw polls w) as [[[r data]|] w1];
    cbn [fst snd] in *.
  - destruct (negb (r =? DHT22_OK)); cbn [snd].
    + exists rest. rewrite S1, C1. auto.
    + rewrite dht22_finish_run. cbn [snd calls dht22_state].
      exists (rest ++ [To_ms_since_boot (u32 (millis hw (calls w1)))]).
      rewrite C1, S1, forallb_app, Q1, <- !app_assoc. cbn. auto.
  - exists rest. rewrite S1, C1. auto.
Qed.

(** ** IEEE-754 values: promotion, negation and comparison *)

(** The literal [0.1] is the binary64 value nearest to one tenth. *)
Lemma lit_0_1_nearest :
  lit_0_1 = SFdiv 53 1024 (double_of_int 1) (double_of_int 10).
Proof. reflexivity. Qed.

Lemma digits2_pos_bounds (m : positive) :
  2 ^ (Zpos (digits2_pos m) - 1) <= Zpos m < 2 ^ Zpos (digits2_pos m).
Proof.
  induction m as [m IH | m IH |]; cbn [digits2_pos].
  - rewrite Pos2Z.inj_succ.
    replace (Z.succ (Zpos (digits2_pos m)) - 1)
      with (Z.succ (Zpos (digits2_pos m) - 1)) by lia.
    rewrite !Z.pow_succ_r by lia. lia.
  - rewrite Pos2Z.inj_succ.
    replace (Z.succ (Zpos (digits2_pos m)) - 1)
      with (Z.succ (Zpos (digits2_pos m) - 1)) by lia.
    rewrite !Z.pow_succ_r by lia. lia.
  - cbn. lia.
Qed.

(** Promotion to [double] is exact: the mantissa gains 29 zero bits. *)
Lemma double_of_float_normal s m e :
  normal32 (S754_finite s m e) = true ->
  double_of_float (S754_finite s m e)
  = S754_finite s (Pos.iter xO m 29) (e - 29).
Proof.
  cbn [normal32]. rewrite !andb_true_iff, Z.eqb_eq, Z.leb_le, Z.ltb_lt.
  intros [[Hd He] He'].
  unfold double_of_float, binary_round.
  assert (Hf : fexp 53 1024 (Zpos (digits2_pos m) + e) = e - 29).
  { unfold fexp, emin. rewrite Hd. lia. }
  rewrite Hf. unfold shl_align.
  replace (e - 29 - e) with (Zneg 29) by lia.
  unfold binary_round_aux, shr_fexp.
  assert (Hd' : Zdigits2 (Zpos (Pos.iter xO m 29)) = 53).
  { cbn. injection Hd as Hd. lia. } 
  rewrite Hd'.
  assert (Hf' : fexp 53 1024 (53 + (e - 29)) = e - 29).
  { unfold fexp, emin. lia. }
  rewrite Hf'. rewrite Z.sub_diag.
  cbn [shr shr_record_of_loc shr_m loc_of_shr_record round_nearest_even].
  rewrite Hd', Hf', Z.sub_diag. cbn [shr shr_record_of_loc shr_m].
  destruct (Z.leb_spec (e - 29) (1024 - 53)); [reflexivity | lia].
Qed.

Lemma iter_shr_1_xO (k : nat) (m : positive) :
  Nat.iter k shr_1
    {| shr_m := Zpos (Nat.iter k xO m); shr_r := false; shr_s := false |}
  = {| shr_m := Zpos m; shr_r := false; shr_s := false |}.
Proof.
  induction k as [|k IH]; [reflexivity|].
  rewrite Nat.iter_succ_r. cbn [Nat.iter shr_1 orb]. exact IH.
Qed.

(** Multiplying by [-1] flips the sign and nothing else. *)
Lemma fmul_minus_one s m e :
  normal32 (S754_finite s m e) = true ->
  fmul (S754_finite s m e) (float_of_int (-1)) = S754_finite (negb s) m e.
Proof.
  cbn [normal32]. rewrite !andb_true_iff, Z.eqb_eq, Z.leb_le, Z.ltb_lt.
  intros [[Hd He] He'].
  change (float_of_int (-1)) with (S754_finite true 8388608 (-23)).
  unfold fmul, SFmul, binary_round_aux, shr_fexp.
  rewrite Pos.mul_comm.
  change (8388608 * m)%positive with (Pos.iter xO m 23).
  assert (Hd' : Zdigits2 (Zpos (Pos.iter xO m 23)) = 47).
  { cbn. injection Hd as Hd. lia. }
  rewrite Hd'.
  assert (Hf : fexp 24 128 (47 + (e + -23)) = e).
  { unfold fexp, emin. lia. }
  rewrite Hf.
  replace (e - (e + -23)) with 23 by lia.
  unfold shr.
  change (iter_pos shr_1 23
            (shr_record_of_loc (Zpos (Pos.iter xO m 23)) loc_Exact))
    with (Nat.iter 23 shr_1
            {| shr_m := Zpos (Nat.iter 23 xO m);
               shr_r := false; shr_s := false |}).
  rewrite iter_shr_1_xO.
  cbn [shr_m loc_of_shr_record round_nearest_even shr_record_of_loc Zdigits2].
  rewrite Hd.
  replace (e + -23 + 23) with e by lia.
  assert (Hf' : fexp 24 128 (24 + e) = e).
  { unfold fexp, emin. lia. }
  rewrite Hf', Z.sub_diag. cbn [shr shr_m].
  destruct (Z.leb_spec e (128 - 24)); [|lia].
  destruct s; reflexivity.
Qed.

(** Mantissas of equal width: comparing exponents first and mantissas
    second compares the values. *)
Lemma compare_same_digits (m1 m2 p1 p2 : positive) :
  digits2_pos m1 = digits2_pos m2 ->
  match Zneg p1 ?= Zneg p2 with
  | Lt => Lt
  | Gt => Gt
  | Eq => Pos.compare_cont Eq m1 m2
  end = (Zpos m1 * Zpos (2 ^ p2) ?= Zpos m2 * Zpos (2 ^ p1)).
Proof.
  intros Hd.
  pose proof (digits2_pos_bounds m1) as B1.
  pose proof (digits2_pos_bounds m2) as B2.
  rewrite <- Hd in B2.
  set (d := Zpos (digits2_pos m1)) in *.
  assert (Hpow : 2 ^ d = 2 * 2 ^ (d - 1)).
  { replace d with (Z.succ (d - 1)) at 1 by lia.
    apply Z.pow_succ_r. unfold d. lia. }
  rewrite Hpow in B1, B2.
  assert (HA : 0 < 2 ^ (d - 1)) by (apply Z.pow_pos_nonneg; unfold d; lia).
  rewrite !Pos2Z.inj_pow.
  assert (step : forall a b : positive, (a < b)%positive ->
            2 * 2 ^ Zpos a <= 2 ^ Zpos b).
  { intros a b Hab. rewrite <- Z.pow_succ_r by lia.
    apply Z.pow_le_mono_r; lia. }
  assert (K1 : 0 < 2 ^ Zpos p1) by (apply Z.pow_pos_nonneg; lia).
  assert (K2 : 0 < 2 ^ Zpos p2) by (apply Z.pow_pos_nonneg; lia).
  cbn [Z.compare].
  destruct (Pos.compare_spec p1 p2) as [E | L | G]; cbn [CompOpp].
  - subst p2. change (Pos.compare_cont Eq m1 m2) with (Zpos m1 ?= Zpos m2).
    destruct (Z.compare_spec (Zpos m1) (Zpos m2)) as [e | l | g]; symmetry.
    + apply Z.compare_eq_iff. rewrite e. reflexivity.
    + apply Z.compare_lt_iff. nia.
    + apply Z.compare_gt_iff. nia.
  - symmetry. apply Z.compare_gt_iff. specialize (step _ _ L). nia.
  - symmetry. apply Z.compare_lt_iff. specialize (step _ _ G). nia.
Qed.

(** On such values the IEEE comparison is the comparison of the
    rationals. *)
Lemma SFcompare_plain64 (a b : spec_float) :
  plain64 a = true -> plain64 b = true ->
  SFcompare a b = Some (SF2Q a ?= SF2Q b)%Q.
Proof.
  destruct a as [sa | | | sa ma [| |pa]]; try discriminate;
  destruct b as [sb | | | sb mb [| |pb]]; try discriminate;
  cbn [plain64]; rewrite ?Z.eqb_eq; intros Ha Hb.
  - reflexivity.
  - destruct sb; reflexivity.
  - destruct sa; reflexivity.
  - assert (Hd : digits2_pos ma = digits2_pos mb)
      by (injection Ha; injection Hb; congruence).
    unfold SFcompare, SF2Q, Qcompare; cbn [Qnum Qden].
    destruct sa, sb; try reflexivity.
    + f_equal.
      transitivity
        (CompOpp (Zpos ma * Zpos (2 ^ pb) ?= Zpos mb * Zpos (2 ^ pa))).
      * rewrite <- (compare_same_digits ma mb pa pb Hd).
        destruct (Zneg pa ?= Zneg pb); reflexivity.
      * reflexivity.
    + f_equal. apply (compare_same_digits ma mb pa pb Hd).
Qed.

Lemma double_of_float_decodable (x : spec_float) :
  decodable x = true ->
  plain64 (double_of_float x) = true /\ (SF2Q (double_of_float x) == SF2Q x)%Q.
Proof.
  destruct x as [s | | | s m e]; try discriminate; intros H.
  - split; reflexivity.
  - cbn [decodable] in H. rewrite (double_of_float_normal s m e H).
    cbn [normal32] in H.
    rewrite !andb_true_iff, Z.eqb_eq, Z.leb_le, Z.ltb_lt in H.
    destruct H as [[Hd _] He]. destruct e as [| |p]; try lia.
    change (Zneg p - 29) with (Zneg (p + 29)).
    split.
    + cbn. injection Hd as Hd. rewrite Hd. reflexivity.
    + unfold SF2Q, Qeq; cbn [Qnum Qden].
      change (Pos.iter xO m 29) with (536870912 * m)%positive.
      assert (Hpow : Zpos (2 ^ (p + 29)) = Zpos (2 ^ p) * 536870912).
      { rewrite !Pos2Z.inj_pow, Pos2Z.inj_add, Z.pow_add_r by lia.
        reflexivity. }
      rewrite Hpow. destruct s; lia.
Qed.

Lemma SFltb_decodable_l (c x : spec_float) :
  plain64 c = true -> decodable x = true ->
  SFltb (double_of_float x) c = true <-> (SF2Q x < SF2Q c)%Q.
Proof.
  intros Hc Hx. destruct (double_of_float_decodable x Hx) as [Hp Hq].
  unfold SFltb. rewrite (SFcompare_plain64 _ _ Hp Hc), Hq, Qlt_alt.
  destruct (SF2Q x ?= SF2Q c)%Q; split; congruence.
Qed.

Lemma SFltb_decodable_r (c x : spec_float) :
  plain64 c = true -> decodable x = true ->
  SFltb c (double_of_float x) = true <-> (SF2Q c < SF2Q x)%Q.
Proof.
  intros Hc Hx. destruct (double_of_float_decodable x Hx) as [Hp Hq].
  unfold SFltb. rewrite (SFcompare_plain64 _ _ Hc Hp), Hq, Qlt_alt.
  destruct (SF2Q c ?= SF2Q x)%Q; split; congruence.
Qed.

Lemma fmul_minus_one_decodable (x : spec_float) :
  decodable x = true -> fmul x (float_of_int (-1)) = SFopp x.
Proof.
  destruct x as [s | | | s m e]; try discriminate; intros H.
  - destruct s; reflexivity.
  - apply fmul_minus_one. exact H.
Qed.

Lemma SF2Q_opp (x : spec_float) : (SF2Q (SFopp x) == - SF2Q x)%Q.
Proof.
  destruct x as [s | s | | s m [| |p]]; try reflexivity; destruct s;
    try reflexivity;
    unfold SFopp, SF2Q, Qeq, Qopp, inject_Z, negb; cbn [Qnum Qden];
    rewrite <- ?Pos2Z.opp_pos; ring.
Qed.

(** ** The decoded values *)

Lemma in_all_bytes b : is_u8 b -> In b all_bytes.
Proof.
  intros H. unfold all_bytes. apply in_map_iff. exists (Z.to_nat b).
  unfold is_u8 in H. split; [lia | apply in_seq; lia].
Qed.

(** Checked for all 65536 values of two bytes. *)
Lemma tenths_ok_all_bytes :
  forallb (fun hi => forallb (fun lo => tenths_ok (256 * hi + lo)) all_bytes)
          all_bytes = true.
Proof. vm_compute. reflexivity. Qed.

Lemma tenths_ok_u16 hi lo :
  is_u8 hi -> is_u8 lo -> tenths_ok (256 * hi + lo) = true.
Proof.
  intros Hh Hl. pose proof tenths_ok_all_bytes as H.
  rewrite forallb_forall in H. specialize (H hi (in_all_bytes hi Hh)).
  rewrite forallb_forall in H. exact (H lo (in_all_bytes lo Hl)).
Qed.

Lemma lor_shiftl_8 hi lo :
  is_u8 hi -> is_u8 lo -> Z.lor (Z.shiftl hi 8) lo = 256 * hi + lo.
Proof.
  unfold is_u8. intros Hh Hl.
  assert (Hland : Z.land (Z.shiftl hi 8) lo = 0).
  { apply Z.bits_inj'. intros n Hn.
    rewrite Z.land_spec, Z.bits_0.
    destruct (Z.lt_ge_cases n 8) as [L | G].
    - rewrite Z.shiftl_spec_low by exact L. reflexivity.
    - replace (Z.testbit lo n) with false; [apply andb_false_r|].
      symmetry. destruct (Z.eq_dec lo 0) as [-> | Hne];
        [apply Z.bits_0|].
      apply Z.bits_above_log2; [lia|].
      apply Z.log2_lt_pow2; [lia|].
      apply Z.lt_le_trans with (2 ^ 8); [cbn; lia|].
      apply Z.pow_le_mono_r; lia. }
  rewrite <- Z.lxor_lor by exact Hland.
  rewrite <- Z.add_nocarry_lxor by exact Hland.
  rewrite Z.shiftl_mul_pow2 by lia. change (2 ^ 8) with 256. lia.
Qed.

Lemma land_127 b : is_u8 b -> Z.land b 127 = b mod 128.
Proof. intros _. change 127 with (Z.ones 7). apply Z.land_ones. lia. Qed.

Lemma land_128 b : is_u8 b -> (Z.land b 128 =? 0) = (b <? 128).
Proof.
  intros H.
  assert (A : forallb (fun b => Bool.eqb (Z.land b 128 =? 0) (b <? 128))
                all_bytes = true) by (vm_compute; reflexivity).
  rewrite forallb_forall in A. apply eqb_prop, A, in_all_bytes, H.
Qed.

Lemma tenths_ok_facts n :
  tenths_ok n = true ->
  decodable (times_0_1 n) = true /\
  sign_of (times_0_1 n) = false /\
  (Qabs (SF2Q (times_0_1 n) - inject_Z n / 10)
   <= inject_Z n / 10 * (1 # 8388608))%Q.
Proof.
  unfold tenths_ok. cbv zeta. rewrite !andb_true_iff, negb_true_iff.
  intros [[Hd Hs] Hq]. rewrite Qle_bool_iff in Hq. auto.
Qed.

Lemma decodable_finite x : decodable x = true -> is_finite x = true.
Proof. destruct x; try discriminate; reflexivity. Qed.

Lemma decodable_opp x : decodable x = true -> decodable (SFopp x) = true.
Proof. destruct x; try discriminate; auto. Qed.

(** The four comparisons of line 116, on decodable values. *)
Lemma range_check_spec h t :
  decodable h = true -> decodable t = true ->
  SFltb (double_of_float h) lit_0_0
  || SFltb lit_100_0 (double_of_float h)
  || SFltb (double_of_float t) (SFopp lit_40_0)
  || SFltb lit_80_0 (double_of_float t) = true
  <-> (SF2Q h < 0 \/ 100 < SF2Q h \/ SF2Q t < - (40) \/ 80 < SF2Q t)%Q.
Proof.
  intros Hh Ht. rewrite !orb_true_iff.
  rewrite (SFltb_decodable_l lit_0_0 h eq_refl Hh).
  rewrite (SFltb_decodable_r lit_100_0 h eq_refl Hh).
  rewrite (SFltb_decodable_l (SFopp lit_40_0) t eq_refl Ht).
  rewrite (SFltb_decodable_r lit_80_0 t eq_refl Ht).
  assert (E0 : (SF2Q lit_0_0 == 0)%Q) by reflexivity.
  assert (E100 : (SF2Q lit_100_0 == 100)%Q) by reflexivity.
  assert (E40 : (SF2Q (SFopp lit_40_0) == - (40))%Q) by reflexivity.
  assert (E80 : (SF2Q lit_80_0 == 80)%Q) by reflexivity.
  rewrite E0, E100, E40, E80. tauto.
Qed.

(** What [dht22_convert_data] stores and returns for a frame. *)
Lemma dht22_convert_data_spec data :
  frame_ok data ->
  let h := 256 * ix data 0 + ix data 1 in
  let t := 256 * (ix data 2 mod 128) + ix data 3 in
  let r := snd (dht22_convert_data data) in
  humidity r = times_0_1 h /\
  temperature r
  = (if ix data 2 <? 128 then times_0_1 t else SFopp (times_0_1 t)) /\
  tenths_ok h = true /\ tenths_ok t = true /\
  (fst (dht22_convert_data data) = DHT22_ERROR_INVALID_DATA <->
   (SF2Q (humidity r) < 0 \/ 100 < SF2Q (humidity r) \/
    SF2Q (temperature r) < - (40) \/ 80 < SF2Q (temperature r))%Q) /\
  (fst (dht22_convert_data data) = DHT22_OK \/
   fst (dht22_convert_data data) = DHT22_ERROR_INVALID_DATA).
Proof.
  intros Hok h t.
  pose proof (frame_ok_ix data 0 Hok) as B0.
  pose proof (frame_ok_ix data 1 Hok) as B1.
  pose proof (frame_ok_ix data 2 Hok) as B2.
  pose proof (frame_ok_ix data 3 Hok) as B3.
  assert (B2' : is_u8 (ix data 2 mod 128)).
  { unfold is_u8 in *. pose proof (Z.mod_pos_bound (ix data 2) 128). lia. }
  pose proof (tenths_ok_u16 _ _ B0 B1) as Th. fold h in Th.
  pose proof (tenths_ok_u16 _ _ B2' B3) as Tt. fold t in Tt.
  destruct (tenths_ok_facts _ Th) as (Dh & _ & _).
  destruct (tenths_ok_facts _ Tt) as (Dt & _ & _).
  unfold dht22_convert_data.
  rewrite lor_shiftl_8 by assumption. fold h.
  rewrite land_127 by assumption.
  rewrite lor_shiftl_8 by assumption. fold t.
  rewrite land_128 by assumption.
  set (tv := if negb (ix data 2 <? 128)
             then fmul (times_0_1 t) (float_of_int (-1))
             else times_0_1 t).
  assert (Etv : tv = if ix data 2 <? 128 then times_0_1 t
                     else SFopp (times_0_1 t)).
  { unfold tv. destruct (ix data 2 <? 128); cbn [negb];
      [reflexivity | apply fmul_minus_one_decodable, Dt]. }
  assert (Dtv : decodable tv = true).
  { rewrite Etv. destruct (ix data 2 <? 128); auto using decodable_opp. }
  pose proof (range_check_spec (times_0_1 h) tv Dh Dtv) as RC.
  destruct (_ || _) eqn:E; cbn [fst snd humidity temperature];
    (split; [reflexivity|]); (split; [exact Etv|]);
    (split; [exact Th|]); (split; [exact Tt|]).
  - split; [| auto]. split; [intros _; apply RC; reflexivity | reflexivity].
  - split; [| auto]. split; [discriminate |].
    intros H. apply RC in H. discriminate.
Qed.
(** ** Termination of the edge waits *)

Lemma returns_ret {A} (a : A) : returns (ret a).
Proof. intros w. exists a. reflexivity. Qed.

Lemma returns_bind {A B} (m : M A) (k : A -> M B) :
  returns m -> (forall a, returns (k a)) -> returns (bind m k).
Proof.
  intros Hm Hk w. unfold bind. destruct (Hm w) as (a & Ha).
  destruct (m w) as [[a'|] w']; cbn [fst] in Ha; [| discriminate].
  apply Hk.
Qed.

Lemma returns_time_us_32 hw : returns (time_us_32 hw).
Proof. intros w. eexists. reflexivity. Qed.

Lemma returns_to_ms_since_boot hw : returns (to_ms_since_boot hw).
Proof. intros w. eexists. reflexivity. Qed.

Lemma returns_record_call c : returns (record_call c).
Proof. intros w. eexists. reflexivity. Qed.

Lemma returns_get_state : returns get_state.
Proof. intros w. eexists. reflexivity. Qed.

Lemma returns_modify_state f : returns (modify_state f).
Proof. intros w. eexists. reflexivity. Qed.

Lemma sub32_u32 a b : sub32 (u32 a) (u32 b) = (a - b) mod 2 ^ 32.
Proof. unfold sub32, u32. symmetry. apply Zminus_mod. Qed.

Section Ticking.

Context (hw : platform).
Hypothesis Hticks : ticking hw.

(** With the clock [d] microseconds past the start of the wait, the loop
    ends within [timeout_us - d] more polls. *)
Lemma wait_loop_returns p state timeout_us m0 :
  0 <= timeout_us <= 2 ^ 30 ->
  forall polls w,
    (1 <= polls)%nat ->
    timeout_us - (micros hw (calls w) - m0) < Z.of_nat polls ->
    0 <= micros hw (calls w) - m0 <= timeout_us + 2 ^ 30 ->
    exists r, fst (wait_loop hw polls p state timeout_us (u32 m0) w) = Some r.
Proof.
  intros Hto. induction polls as [|polls IH]; intros w Hp Hm Hd; [lia|].
  cbn [wait_loop]. unfold bind. cbn [gpio_get].
  destruct (Bool.eqb _ state); [eexists; reflexivity|].
  cbn [time_us_32 calls dht22_state].
  set (g := Gpio_get p (level hw (calls w) p)).
  pose proof (Hticks (calls w) g eq_refl) as T1.
  rewrite sub32_u32.
  rewrite Z.mod_small by lia.
  match goal with
  | |- context [?a >? timeout_us] => destruct (Z.gtb_spec a timeout_us)
  end; [eexists; reflexivity|].
  set (c := Time_us_32 (u32 (micros hw (calls w ++ [g])))).
  pose proof (Hticks (calls w ++ [g]) c eq_refl) as T2.
  apply IH; cbn [calls]; lia.
Qed.

Lemma returns_wait_for_pin_state polls p state timeout_us :
  0 <= timeout_us <= 2 ^ 30 ->
  (1 <= polls)%nat -> timeout_us <= Z.of_nat polls ->
  returns (wait_for_pin_state hw polls p state timeout_us).
Proof.
  intros Hto Hp Hpolls w. unfold wait_for_pin_state, bind.
  cbn [time_us_32].
  set (c := Time_us_32 (u32 (micros hw (calls w)))).
  pose proof (Hticks (calls w) c eq_refl) as T.
  apply wait_loop_returns; cbn [calls]; auto; lia.
Qed.

Variable polls : nat.
Hypothesis Hpolls : (200 <= polls)%nat.

Lemma returns_edge_wait p state :
  returns (wait_for_pin_state hw polls p state DHT22_RESPONSE_WAIT_TIMEOUT).
Proof.
  apply returns_wait_for_pin_state; unfold DHT22_RESPONSE_WAIT_TIMEOUT; lia.
Qed.

Lemma returns_dht22_read_data_from p todo :
  forall i data, returns (dht22_read_data_from hw polls p todo i data).
Proof.
  induction todo as [|todo IH]; intros i data; cbn [dht22_read_data_from].
  - apply returns_ret.
  - apply returns_bind; [apply returns_edge_wait|]. intros r1.
    destruct (negb (r1 =? 0)); [apply returns_ret|].
    apply returns_bind; [apply returns_time_us_32|]. intros t0.
    apply returns_bind; [apply returns_edge_wait|]. intros r2.
    destruct (negb (r2 =? 0)); [apply returns_ret|].
    apply returns_bind; [apply returns_time_us_32|]. intros t1.
    apply IH.
Qed.

(** Every read returns. *)
Lemma returns_dht22_read out : returns (dht22_read hw polls out).
Proof.
  unfold dht22_read.
  apply returns_bind; [apply returns_get_state|]. intros s0.
  destruct (negb (initialized s0)); [apply returns_ret|].
  apply returns_bind; [apply returns_to_ms_since_boot|]. intros now.
  apply returns_bind; [apply returns_get_state|]. intros s1.
  apply returns_bind;
    [destruct (_ && _); [apply returns_record_call | apply returns_ret]|].
  intros _.
  apply returns_bind; [apply returns_get_state|]. intros s2.
  apply returns_bind.
  { unfold dht22_send_start_signal.
    repeat (apply returns_bind; [apply returns_record_call | intros _]).
    apply returns_ret. }
  intros r0. destruct (negb (r0 =? DHT22_OK)); [apply returns_ret|].
  apply returns_bind; [apply returns_get_state|]. intros s3.
  apply returns_bind.
  { unfold dht22_wait_for_response.
    repeat (apply returns_bind; [apply returns_edge_wait | intros ?r];
            match goal with
            | |- returns (if ?c then _ else _) =>
                destruct c; [apply returns_ret|]
            end).
    apply returns_ret. }
  intros r1. destruct (negb (r1 =? DHT22_OK)); [apply returns_ret|].
  apply returns_bind; [apply returns_get_state|]. intros s4.
  apply returns_bind.
  { intros w. rewrite dht22_read_data_unfold.
    apply returns_dht22_read_data_from. }
  intros [r2 d2].
  destruct (negb (r2 =? DHT22_OK)); [apply returns_ret|].
  apply returns_bind; [apply returns_to_ms_since_boot|]. intros ts.
  apply returns_bind; [apply returns_modify_state|]. intros _.
  destruct (negb (_ =? DHT22_OK)); apply returns_ret.
Qed.

End Ticking.

(** A wait returns 0 only after seeing the pin at the awaited level. *)
Lemma wait_loop_zero_seen hw polls p state timeout_us start :
  forall w,
    fst (wait_loop hw polls p state timeout_us start w) = Some 0 ->
    exists tr, level hw tr p = state.
Proof.
  induction polls as [|polls IH]; intros w; cbn [wait_loop].
  - discriminate.
  - unfold bind. cbn [gpio_get].
    destruct (Bool.eqb _ state) eqn:E.
    + intros _. exists (calls w). apply eqb_prop, E.
    + cbn [time_us_32]. destruct (_ >? timeout_us); [discriminate|].
      apply IH.
Qed.

Section Stuck.

Context (hw : platform).
Hypothesis Hticks : ticking hw.
Variable polls : nat.
Hypothesis Hpolls : (200 <= polls)%nat.

(** A line that stays at the other level makes an edge wait give up. *)
Lemma wait_for_pin_state_stuck p state w :
  (forall tr, level hw tr p = negb state) ->
  fst (wait_for_pin_state hw polls p state DHT22_RESPONSE_WAIT_TIMEOUT w)
  = Some (-1).
Proof.
  intros Hs.
  destruct (returns_edge_wait hw Hticks polls Hpolls p state w) as (r & Hr).
  destruct (wait_for_pin_state_result _ _ _ _ _ _ _ Hr) as [-> | ->];
    [| exact Hr].
  exfalso. unfold wait_for_pin_state, bind in Hr. cbn [time_us_32] in Hr.
  destruct (wait_loop_zero_seen _ _ _ _ _ _ _ Hr) as (tr & E).
  rewrite Hs in E. destruct state; discriminate.
Qed.

(** With the line held high (no sensor answering), the first edge wait of
    a read gives up. *)
Lemma edge_waits_line_high w :
  (forall tr, level hw tr (pin (dht22_state w)) = true) ->
  fst (edge_waits hw polls w) = Some [-1].
Proof.
  intros Hs. unfold edge_waits, bind, get_state, ret.
  cbn [to_ms_since_boot dht22_state calls].
  match goal with
  | |- context [if ?c then sleep_ms ?d else _] => destruct c
  end; cbn [sleep_ms record_call dht22_state calls fst snd];
  unfold dht22_send_start_signal, bind, ret, gpio_set_dir, gpio_put, sleep_us,
    record_call; cbn [dht22_state calls];
  unfold handshake_waits, bind;
  match goal with
  | |- context [wait_for_pin_state hw polls ?q false ?t ?v] =>
      pose proof (wait_for_pin_state_stuck q false v Hs) as W;
      destruct (wait_for_pin_state hw polls q false t v) as [[r1|] w1];
      cbn [fst] in W; [| discriminate]
  end; injection W as ->; reflexivity.
Qed.

End Stuck.

(** * The properties of the climate decoder *)

(** C7. A read made while the driver has never been initialized returns
    [DHT22_ERROR_NOT_INITIALIZED] and leaves the world as it is: no SDK call
    is made (no pin configuration, write, read, clock read or sleep), the
    driver state is unchanged and the caller's cells are not written. *)
Theorem dht22_read_not_initialized hw polls out w :
  initialized (dht22_state w) = false ->
  dht22_read hw polls out w = (Some (DHT22_ERROR_NOT_INITIALIZED, out), w).
Proof.
  intros Hi. rewrite dht22_read_unfold, Hi. reflexivity.
Qed.

(** C10. While the stored timestamp is the 0 that [dht22_init] sets, a read
    of the initialized driver samples the millisecond clock and issues the
    start signal at once, whatever the clock reads: it makes no [sleep_ms]
    call, and every call after the start signal is a query. *)
Theorem dht22_read_zero_timestamp_no_wait hw polls out w :
  initialized (dht22_state w) = true ->
  last_read_time_ms (dht22_state w) = 0 ->
  exists rest,
    calls (snd (dht22_read hw polls out w))
    = calls w
      ++ To_ms_since_boot (u32 (millis hw (calls w)))
         :: start_signal_calls (pin (dht22_state w)) ++ rest /\
    forallb is_query rest = true /\
    (forall ms, ~ In (Sleep_ms ms)
                  (To_ms_since_boot (u32 (millis hw (calls w)))
                   :: start_signal_calls (pin (dht22_state w)) ++ rest)).
Proof.
  intros Hi Hl.
  destruct (dht22_read_calls hw polls out w Hi) as (rest & C & Q & _).
  exists rest. unfold opening_calls in C. rewrite Hl in C.
  rewrite andb_false_r in C. cbn [app] in C.
  split; [exact C|]. split; [exact Q|].
  intros ms [H | H]; [discriminate|].
  apply in_app_or in H. destruct H as [H | H].
  - cbn in H. intuition discriminate.
  - rewrite forallb_forall in Q. specialize (Q _ H). discriminate.
Qed.

(** X13. A read of the initialized driver that finds a stored timestamp
    other than 0 less than 2000 ms (on the 32-bit millisecond counter) in
    the past calls [sleep_ms] once, with exactly the remainder
    [2000 - elapsed], after sampling the clock and before the start signal;
    every later call is a query. *)
Theorem dht22_read_min_interval hw polls out w :
  initialized (dht22_state w) = true ->
  last_read_time_ms (dht22_state w) <> 0 ->
  let now := u32 (millis hw (calls w)) in
  let elapsed := sub32 now (last_read_time_ms (dht22_state w)) in
  elapsed < DHT22_MIN_INTERVAL_MS ->
  exists rest,
    calls (snd (dht22_read hw polls out w))
    = calls w
      ++ To_ms_since_boot now
         :: Sleep_ms (DHT22_MIN_INTERVAL_MS - elapsed)
         :: start_signal_calls (pin (dht22_state w)) ++ rest /\
    forallb is_query rest = true.
Proof.
  intros Hi Hl now elapsed He.
  destruct (dht22_read_calls hw polls out w Hi) as (rest & C & Q & _).
  exists rest. unfold opening_calls in C. fold now in C. fold elapsed in C.
  replace (elapsed <? DHT22_MIN_INTERVAL_MS) with true in C
    by (symmetry; apply Z.ltb_lt; exact He).
  replace (last_read_time_ms (dht22_state w) =? 0) with false in C
    by (symmetry; apply Z.eqb_neq; exact Hl).
  cbn [andb negb app] in C.
  assert (H0 : 0 <= elapsed).
  { unfold elapsed, sub32, u32. apply Z.mod_pos_bound. lia. }
  assert (Hs : sub32 DHT22_MIN_INTERVAL_MS elapsed
               = DHT22_MIN_INTERVAL_MS - elapsed).
  { unfold sub32, u32, DHT22_MIN_INTERVAL_MS in *.
    apply Z.mod_small. lia. }
  rewrite Hs in C. split; [exact C | exact Q].
Qed.

(** C6. In a read of the initialized driver, when the capture of the 40
    bits completes the millisecond clock is sampled next and stored as the
    last-read timestamp, whatever the checksum and the range check then
    say (the status is OK, Checksum or InvalidData); when the handshake or
    the capture ends in a timeout the read returns Timeout at once and the
    driver state, timestamp included, is as before; and a read whose poll
    budget runs out leaves it as before too. *)
Theorem dht22_read_timestamp hw polls out w :
  initialized (dht22_state w) = true ->
  let c := dht22_capture hw polls w in
  let r := dht22_read hw polls out w in
  (forall data, fst c = Some (DHT22_OK, data) ->
     let ts := u32 (millis hw (calls (snd c))) in
     calls (snd r) = calls (snd c) ++ [To_ms_since_boot ts] /\
     dht22_state (snd r) = set_last_read_time_ms ts (dht22_state w) /\
     last_read_time_ms (dht22_state (snd r)) = ts /\
     exists code rd,
       fst r = Some (code, rd) /\
       (code = DHT22_OK \/ code = DHT22_ERROR_CHECKSUM \/
        code = DHT22_ERROR_INVALID_DATA) /\
       code = (if negb (dht22_verify_checksum data =? DHT22_OK)
               then DHT22_ERROR_CHECKSUM
               else fst (dht22_convert_data data))) /\
  (forall code data, fst c = Some (code, data) -> code <> DHT22_OK ->
     code = DHT22_ERROR_TIMEOUT /\
     fst r = Some (DHT22_ERROR_TIMEOUT, out) /\
     snd r = snd c /\
     dht22_state (snd r) = dht22_state w) /\
  (fst c = None ->
     fst r = None /\ dht22_state (snd r) = dht22_state w).
Proof.
  intros Hi c r. subst r. rewrite dht22_read_unfold, Hi. cbn [negb].
  destruct (dht22_capture_calls hw polls w) as (rest & S1 & _ & _).
  pose proof (dht22_capture_result hw polls w) as R.
  fold c in S1, R |- *.
  destruct c as [[[code data]|] w1]; cbn [fst snd] in *.
  - split; [| split; [| discriminate]].
    + intros data' [= -> ->].
      change (negb (DHT22_OK =? DHT22_OK)) with false. cbv iota.
      rewrite dht22_finish_run. cbn [fst snd calls dht22_state].
      rewrite S1. repeat split.
      destruct (dht22_verify_checksum_result data') as [E | E]; rewrite E.
      * change (negb (DHT22_OK =? DHT22_OK)) with false. cbv iota.
        unfold dht22_convert_data.
        destruct (_ || _); eexists _, _; (split; [reflexivity|]); auto.
      * change (negb (DHT22_ERROR_CHECKSUM =? DHT22_OK)) with true.
        cbv iota. eexists _, _; (split; [reflexivity|]); auto.
    + intros code' data' [= -> ->] Hne.
      destruct (R _ _ eq_refl) as [[-> | ->] _]; [congruence|].
      change (negb (DHT22_ERROR_TIMEOUT =? DHT22_OK)) with true. cbv iota.
      cbn [fst snd]. auto.
  - split; [discriminate|]. split; [discriminate|]. auto.
Qed.

(** C9. In a read of the initialized driver, as soon as one of its edge
    waits gives up (returns -1, which [wait_for_pin_state] does only after
    reading the clock more than [timeout_us] past its start while the pin
    is at the other level), the read returns Timeout and the driver state
    is as before.  After every outcome of a read the driver is still
    initialized on the same pin, so that the next read is not refused and
    opens with the interval check and the start signal on that pin.  On a
    platform whose microsecond counter moves on with every query, a budget
    of 200 polls per wait is enough for the read to return, and it returns
    Timeout when the line stays high. *)
Theorem dht22_read_edge_timeout hw polls out w :
  initialized (dht22_state w) = true ->
  let r := dht22_read hw polls out w in
  (forall rs, fst (edge_waits hw polls w) = Some rs -> In (-1) rs ->
     fst r = Some (DHT22_ERROR_TIMEOUT, out) /\
     dht22_state (snd r) = dht22_state w) /\
  (forall p state timeout_us w0,
     fst (wait_for_pin_state hw polls p state timeout_us w0) = Some (-1) ->
     exists start mid now,
       calls (snd (wait_for_pin_state hw polls p state timeout_us w0))
       = calls w0 ++ Time_us_32 start :: mid
                  ++ [Gpio_get p (negb state); Time_us_32 now] /\
       timeout_us < sub32 now start) /\
  initialized (dht22_state (snd r)) = true /\
  pin (dht22_state (snd r)) = pin (dht22_state w) /\
  (forall polls' out',
     fst (dht22_read hw polls' out' (snd r))
     <> Some (DHT22_ERROR_NOT_INITIALIZED, out') /\
     exists rest,
       calls (snd (dht22_read hw polls' out' (snd r)))
       = calls (snd r) ++ opening_calls hw (snd r) ++ rest) /\
  (ticking hw -> (200 <= polls)%nat ->
   (exists code rd, fst r = Some (code, rd)) /\
   ((forall tr, level hw tr (pin (dht22_state w)) = true) ->
    fst r = Some (DHT22_ERROR_TIMEOUT, out) /\
    dht22_state (snd r) = dht22_state w)).
Proof.
  intros Hi r.
  destruct (dht22_read_calls hw polls out w Hi) as (rest & C & Q & Hi' & Hp).
  fold r in C, Hi', Hp.
  assert (A : forall rs,
            fst (edge_waits hw polls w) = Some rs -> In (-1) rs ->
            fst r = Some (DHT22_ERROR_TIMEOUT, out) /\
            dht22_state (snd r) = dht22_state w).
  { intros rs Hrs Hin. subst r. rewrite dht22_read_unfold, Hi. cbn [negb].
    pose proof (dht22_capture_waits hw polls w) as W.
    destruct (dht22_capture_calls hw polls w) as (rest' & S1 & _ & _).
    destruct (dht22_capture hw polls w) as [[[code data]|] w1];
      cbn [fst snd] in *.
    - destruct W as (rs' & E & Ht). rewrite E in Hrs.
      injection Hrs as <-. rewrite (proj2 Ht Hin).
      change (negb (DHT22_ERROR_TIMEOUT =? DHT22_OK)) with true. cbv iota.
      cbn [fst snd]. auto.
    - rewrite W in Hrs. discriminate. }
  split; [exact A|].
  split; [intros p state timeout_us w0; apply wait_for_pin_state_exceeded|].
  split; [exact Hi'|]. split; [exact Hp|]. split.
  - intros polls' out'.
    destruct (dht22_read_calls hw polls' out' (snd r) Hi')
      as (rest2 & C2 & _).
    split; [| exists rest2; exact C2].
    rewrite dht22_read_unfold, Hi'. cbn [negb].
    pose proof (dht22_capture_result hw polls' (snd r)) as R.
    destruct (dht22_capture hw polls' (snd r)) as [[[code data]|] w1];
      cbn [fst snd] in *; [| discriminate].
    destruct (R _ _ eq_refl) as [[-> | ->] _].
    + change (negb (DHT22_OK =? DHT22_OK)) with false. cbv iota.
      rewrite dht22_finish_run. cbn [fst].
      destruct (dht22_verify_checksum_result data) as [E | E]; rewrite E.
      * change (negb (DHT22_OK =? DHT22_OK)) with false. cbv iota.
        unfold dht22_convert_data. destruct (_ || _); discriminate.
      * discriminate.
    + discriminate.
  - intros Ht Hpolls. split.
    + destruct (returns_dht22_read hw Ht polls Hpolls out w)
        as ([code rd] & E).
      exists code, rd. exact E.
    + intros Hs.
      apply (A [-1] (edge_waits_line_high hw Ht polls Hpolls w Hs)).
      left. reflexivity.
Qed.

(** C2. Checksum verification of a frame succeeds exactly when byte 4 is
    the sum of bytes 0 to 3 modulo 256 and reports Checksum otherwise; and
    a read of the initialized driver whose capture completes with a frame
    that fails the check returns Checksum, the caller's cells untouched. *)
Theorem dht22_verify_checksum_spec :
  (forall b0 b1 b2 b3 b4,
     (dht22_verify_checksum [b0; b1; b2; b3; b4] = DHT22_OK <->
      b4 = (b0 + b1 + b2 + b3) mod 256) /\
     (b4 <> (b0 + b1 + b2 + b3) mod 256 ->
      dht22_verify_checksum [b0; b1; b2; b3; b4] = DHT22_ERROR_CHECKSUM)) /\
  (forall hw polls out w data,
     initialized (dht22_state w) = true ->
     fst (dht22_capture hw polls w) = Some (DHT22_OK, data) ->
     ix data 4 <> (ix data 0 + ix data 1 + ix data 2 + ix data 3) mod 256 ->
     fst (dht22_read hw polls out w) = Some (DHT22_ERROR_CHECKSUM, out)).
Proof.
  split.
  - intros b0 b1 b2 b3 b4. unfold dht22_verify_checksum, u8.
    change (ix [b0; b1; b2; b3; b4] 0) with b0.
    change (ix [b0; b1; b2; b3; b4] 1) with b1.
    change (ix [b0; b1; b2; b3; b4] 2) with b2.
    change (ix [b0; b1; b2; b3; b4] 3) with b3.
    change (ix [b0; b1; b2; b3; b4] 4) with b4.
    destruct (Z.eqb_spec ((b0 + b1 + b2 + b3) mod 256) b4) as [E | NE];
      cbn [negb]; unfold DHT22_OK, DHT22_ERROR_CHECKSUM;
      split; try split; intros; try reflexivity; try discriminate;
      congruence.
  - intros hw polls out w data Hi Hc Hne.
    rewrite dht22_read_unfold, Hi. cbn [negb].
    destruct (dht22_capture hw polls w) as [[[code d]|] w1];
      cbn [fst] in Hc; [| discriminate].
    injection Hc as -> ->.
    change (negb (DHT22_OK =? DHT22_OK)) with false. cbv iota.
    rewrite dht22_finish_run. cbn [fst].
    unfold dht22_verify_checksum, u8.
    destruct (Z.eqb_spec ((ix data 0 + ix data 1 + ix data 2 + ix data 3)
                            mod 256) (ix data 4)) as [E | NE];
      [congruence | reflexivity].
Qed.

(** C3. A high pulse is read as a 1 exactly when its measured length is
    above 50 us (49 us gives 0, 51 us gives 1), and the capture loop,
    started on a zeroed buffer, stores the bit of the i-th measured pulse
    in byte [i / 8] at bit position [7 - i mod 8]: most significant bit
    first, byte after byte; the bits of pulses not measured stay 0 and on
    status OK all 40 pulses were measured. *)
Theorem dht22_read_data_bits hw polls p w :
  (forall pulse_length,
     bit_of_pulse pulse_length = true <-> 50 < pulse_length) /\
  bit_of_pulse 49 = false /\ bit_of_pulse 51 = true /\
  (forall code data,
     fst (dht22_read_data hw polls p [0; 0; 0; 0; 0] w) = Some (code, data) ->
     exists ps,
       measured_pulses hw polls p 40 w
       = (Some ps, snd (dht22_read_data hw polls p [0; 0; 0; 0; 0] w)) /\
       (code = DHT22_OK <-> length ps = 40%nat) /\
       length data = 5%nat /\
       (forall k, is_u8 (ix data k)) /\
       (forall i, 0 <= i < 40 ->
          frame_bit data i
          = (i <? Z.of_nat (length ps))
            && bit_of_pulse (nth (Z.to_nat i) ps 0))).
Proof.
  split; [| split; [reflexivity | split; [reflexivity |]]].
  - intros len. unfold bit_of_pulse, DHT22_BIT_THRESHOLD.
    destruct (Z.gtb_spec len 50); split; intros; try discriminate;
      try reflexivity; lia.
  - intros code data H. rewrite dht22_read_data_unfold in H |- *.
    pose proof (dht22_read_data_from_pulses hw polls p 40 0 [0; 0; 0; 0; 0] w)
      as P.
    destruct (dht22_read_data_from hw polls p 40 0 [0; 0; 0; 0; 0] w)
      as [[[r d]|] w']; cbn [fst snd] in *; [| discriminate].
    injection H as -> ->.
    destruct P as (ps & Hm & -> & Hl & Hr).
    pose proof (frame_ok_store_bits ps 0 _ frame_ok_zero) as Hok.
    exists ps. split; [exact Hm|]. split; [exact Hr|].
    split; [apply Hok|]. split; [intros k; apply frame_ok_ix, Hok|].
    intros i Hi.
    rewrite frame_bit_store_bits by (auto using frame_ok_zero; lia).
    rewrite frame_bit_zero, orb_false_r, Z.sub_0_r, Z.add_0_l.
    replace (0 <=? i) with true by (symmetry; apply Z.leb_le; lia).
    rewrite andb_true_l. reflexivity.
Qed.

(** C1. For every frame, [dht22_convert_data] stores as humidity the
    16-bit big-endian value of bytes 0 and 1 times 0.1, and as temperature
    the 15-bit big-endian value of the low 7 bits of byte 2 and of byte 3
    times 0.1, negated exactly when the top bit of byte 2 is set.  The
    products are the C ones ([int] times the [double] 0.1, rounded to
    [float]); they are finite and within a relative error of 2^-23 of the
    exact tenth.  Bytes {0x01, 0xF4} give exactly 50, {0x00, 0xC8} exactly
    20 and {0x80, 0xC8} exactly -20. *)
Theorem dht22_convert_data_values b0 b1 b2 b3 b4 :
  is_u8 b0 -> is_u8 b1 -> is_u8 b2 -> is_u8 b3 -> is_u8 b4 ->
  let r := snd (dht22_convert_data [b0; b1; b2; b3; b4]) in
  let h := 256 * b0 + b1 in
  let t := 256 * (b2 mod 128) + b3 in
  humidity r = times_0_1 h /\
  temperature r = (if b2 <? 128 then times_0_1 t else SFopp (times_0_1 t)) /\
  is_finite (humidity r) = true /\
  is_finite (temperature r) = true /\
  (Qabs (SF2Q (humidity r) - inject_Z h / 10)
   <= inject_Z h / 10 * (1 # 8388608))%Q /\
  (Qabs (SF2Q (temperature r) - inject_Z (if b2 <? 128 then t else - t) / 10)
   <= inject_Z t / 10 * (1 # 8388608))%Q /\
  (b0 = 1 -> b1 = 244 -> (SF2Q (humidity r) == 50)%Q) /\
  (b2 = 0 -> b3 = 200 -> (SF2Q (temperature r) == 20)%Q) /\
  (b2 = 128 -> b3 = 200 -> (SF2Q (temperature r) == - (20))%Q).
Proof.
  intros H0 H1 H2 H3 H4 r h t.
  assert (Hok : frame_ok [b0; b1; b2; b3; b4]).
  { split; [reflexivity |]. repeat (constructor; [assumption|]). constructor. }
  destruct (dht22_convert_data_spec _ Hok) as (Eh & Et & Th & Tt & _).
  change (ix [b0; b1; b2; b3; b4] 0) with b0 in *.
  change (ix [b0; b1; b2; b3; b4] 1) with b1 in *.
  change (ix [b0; b1; b2; b3; b4] 2) with b2 in *.
  change (ix [b0; b1; b2; b3; b4] 3) with b3 in *.
  fold r h t in Eh, Et, Th, Tt.
  destruct (tenths_ok_facts _ Th) as (Dh & _ & Ah).
  destruct (tenths_ok_facts _ Tt) as (Dt & _ & At).
  rewrite Eh, Et.
  split; [reflexivity|]. split; [reflexivity|].
  split; [apply decodable_finite, Dh|].
  split; [destruct (b2 <? 128);
          auto using decodable_finite, decodable_opp|].
  split; [exact Ah|].
  split.
  - destruct (b2 <? 128); [exact At|].
    assert (E : (SF2Q (SFopp (times_0_1 t)) - inject_Z (- t) / 10
                 == - (SF2Q (times_0_1 t) - inject_Z t / 10))%Q).
    { rewrite SF2Q_opp, inject_Z_opp. field. }
    rewrite E, Qabs_opp. exact At.
  - repeat split; intros -> ->; subst h t; reflexivity.
Qed.

(** C4. In a read of the initialized driver whose capture completes with a
    frame that passes the checksum, the read returns InvalidData (with the
    decoded values stored) whenever the decoded humidity is below 0 or
    above 100 or the decoded temperature is below -40 or above 80, and OK
    otherwise; a frame whose humidity bytes are {0x05, 0xDC} decodes to
    exactly 150 and one whose temperature bytes are {0x03, 0x84} to exactly
    90, so both are rejected. *)
Theorem dht22_read_rejects_out_of_range hw polls out w data :
  initialized (dht22_state w) = true ->
  fst (dht22_capture hw polls w) = Some (DHT22_OK, data) ->
  dht22_verify_checksum data = DHT22_OK ->
  let r := snd (dht22_convert_data data) in
  let out_of_range :=
    (SF2Q (humidity r) < 0 \/ 100 < SF2Q (humidity r) \/
     SF2Q (temperature r) < - (40) \/ 80 < SF2Q (temperature r))%Q in
  (out_of_range ->
   fst (dht22_read hw polls out w) = Some (DHT22_ERROR_INVALID_DATA, r)) /\
  (~ out_of_range ->
   fst (dht22_read hw polls out w) = Some (DHT22_OK, r)) /\
  (ix data 0 = 5 -> ix data 1 = 220 ->
   (SF2Q (humidity r) == 150)%Q /\
   fst (dht22_read hw polls out w) = Some (DHT22_ERROR_INVALID_DATA, r)) /\
  (ix data 2 = 3 -> ix data 3 = 132 ->
   (SF2Q (temperature r) == 90)%Q /\
   fst (dht22_read hw polls out w) = Some (DHT22_ERROR_INVALID_DATA, r)).
Proof.
  intros Hi Hc Hv r out_of_range.
  destruct (dht22_capture_result hw polls w _ _ Hc) as [_ Hok].
  destruct (dht22_convert_data_spec _ Hok) as (Eh & Et & _ & _ & Hinv & Hst).
  fold r in Eh, Et, Hinv. fold out_of_range in Hinv.
  assert (Hrun : fst (dht22_read hw polls out w)
                 = Some (fst (dht22_convert_data data), r)).
  { rewrite dht22_read_unfold, Hi. cbn [negb].
    destruct (dht22_capture hw polls w) as [[[code d]|] w1];
      cbn [fst] in Hc; [| discriminate].
    injection Hc as -> ->.
    change (negb (DHT22_OK =? DHT22_OK)) with false. cbv iota.
    rewrite dht22_finish_run, Hv. cbn [fst].
    change (negb (DHT22_OK =? DHT22_OK)) with false. cbv iota.
    unfold r. rewrite <- surjective_pairing. reflexivity. }
  assert (Hrej : out_of_range ->
            fst (dht22_read hw polls out w)
            = Some (DHT22_ERROR_INVALID_DATA, r)).
  { intros Ho. rewrite Hrun, (proj2 Hinv Ho). reflexivity. }
  split; [exact Hrej|]. split; [| split].
  - intros Hn. rewrite Hrun. destruct Hst as [-> | E]; [reflexivity|].
    exfalso. apply Hn, Hinv, E.
  - intros E0 E1.
    assert (E : (SF2Q (humidity r) == 150)%Q)
      by (rewrite Eh, E0, E1; reflexivity).
    split; [exact E|]. apply Hrej. right. left. rewrite E. reflexivity.
  - intros E2 E3.
    assert (E : (SF2Q (temperature r) == 90)%Q)
      by (rewrite Et, E2, E3; reflexivity).
    split; [exact E|]. apply Hrej. right. right. right. rewrite E.
    reflexivity.
Qed.

(** * The properties of the load-cell conversions *)

(** C8. [calibrate_hx711] rejects a reference weight that is zero or
    negative and leaves the scale factor as it was, and otherwise stores
    the reading divided by the weight; [calculate_weight] rejects a zero
    scale factor instead of dividing by it; calibrating with 1000 counts
    for 5.0 units stores 200, and 400 counts then weigh 2.0. *)
Theorem hx711_guards known_weight_reading reading actual_weight scale :
  (HX711.zero_or_negative actual_weight ->
   HX711.calibrate_hx711 known_weight_reading actual_weight scale
   = (HX711.Hx_rejected, scale)) /\
  (SFltb (S754_zero false) actual_weight = true ->
   HX711.calibrate_hx711 known_weight_reading actual_weight scale
   = (HX711.Hx_ok tt,
      fdiv (float_of_int known_weight_reading) actual_weight)) /\
  (HX711.is_zero scale ->
   HX711.calculate_weight reading scale = HX711.Hx_rejected) /\
  (SFeqb scale (S754_zero false) = false ->
   HX711.calculate_weight reading scale
   = HX711.Hx_ok (fdiv (float_of_int reading) scale)) /\
  HX711.calibrate_hx711 1000 (float_of_int 5) HX711.scale_factor_initial
  = (HX711.Hx_ok tt, float_of_int 200) /\
  HX711.calculate_weight 400 (float_of_int 200) = HX711.Hx_ok (float_of_int 2).
Proof.
  unfold HX711.calibrate_hx711, HX711.calculate_weight.
  split; [| split; [| split; [| split; [| split]]]].
  - destruct actual_weight as [s | s | | s m e]; cbn;
      intros H; subst; try contradiction; reflexivity.
  - unfold SFltb, SFleb. destruct actual_weight as [s | [|] | | [|] m e];
      cbn; intros H; try discriminate; reflexivity.
  - destruct scale; cbn; intros H; try contradiction; reflexivity.
  - intros ->. reflexivity.
  - reflexivity.
  - reflexivity.
Qed.

(** The simulated boards tick. *)
Lemma sensor_ticking boot_us wave : ticking (Sim.sensor boot_us wave).
Proof.
  intros tr c Hc. cbn [micros Sim.sensor]. unfold Sim.elapsed_us.
  rewrite fold_left_app. cbn [fold_left].
  destruct c; try discriminate Hc; cbn [Sim.call_cost]; lia.
Qed.

(** * Further properties of the climate decoder *)

(** ** Listening on one pin *)

Lemma listens_ret {A} p (a : A) : listens_only p (ret a).
Proof. intros w. exists []. cbn. rewrite app_nil_r. auto. Qed.

Lemma listens_spin {A} p : listens_only p (@spin A).
Proof. intros w. exists []. cbn. rewrite app_nil_r. auto. Qed.

Lemma listens_bind {A B} p (m : M A) (k : A -> M B) :
  listens_only p m -> (forall a, listens_only p (k a)) ->
  listens_only p (bind m k).
Proof.
  intros Hm Hk w. unfold bind.
  destruct (Hm w) as (e1 & S1 & C1 & Q1).
  destruct (m w) as [[a|] w1]; cbn [snd] in *.
  - destruct (Hk a w1) as (e2 & S2 & C2 & Q2).
    exists (e1 ++ e2).
    rewrite S2, S1, C2, C1, app_assoc, forallb_app, Q1, Q2. auto.
  - exists e1. auto.
Qed.

Lemma listens_gpio_get hw p : listens_only p (gpio_get hw p).
Proof.
  intros w. eexists. cbn. repeat split.
  unfold listens_on. cbn. rewrite Z.eqb_refl. reflexivity.
Qed.

Lemma listens_time_us_32 hw p : listens_only p (time_us_32 hw).
Proof. intros w. eexists. cbn. repeat split. Qed.

Lemma listens_wait_loop hw polls p state timeout_us start :
  listens_only p (wait_loop hw polls p state timeout_us start).
Proof.
  induction polls as [|polls IH]; cbn [wait_loop].
  - apply listens_spin.
  - apply listens_bind; [apply listens_gpio_get|]. intros b.
    destruct (Bool.eqb b state); [apply listens_ret|].
    apply listens_bind; [apply listens_time_us_32|]. intros now.
    destruct (_ >? _); [apply listens_ret | exact IH].
Qed.

Lemma listens_wait_for_pin_state hw polls p state timeout_us :
  listens_only p (wait_for_pin_state hw polls p state timeout_us).
Proof.
  unfold wait_for_pin_state.
  apply listens_bind; [apply listens_time_us_32|]. intros start.
  apply listens_wait_loop.
Qed.

Lemma listens_dht22_wait_for_response hw polls p :
  listens_only p (dht22_wait_for_response hw polls p).
Proof.
  unfold dht22_wait_for_response.
  repeat (apply listens_bind; [apply listens_wait_for_pin_state | intros ?r];
          match goal with
          | |- listens_only _ (if ?c then _ else _) =>
              destruct c; [apply listens_ret|]
          end).
  apply listens_ret.
Qed.

Lemma listens_dht22_read_data_from hw polls p todo :
  forall i data, listens_only p (dht22_read_data_from hw polls p todo i data).
Proof.
  induction todo as [|todo IH]; intros i data; cbn [dht22_read_data_from].
  - apply listens_ret.
  - apply listens_bind; [apply listens_wait_for_pin_state|]. intros r1.
    destruct (negb (r1 =? 0)); [apply listens_ret|].
    apply listens_bind; [apply listens_time_us_32|]. intros t0.
    apply listens_bind; [apply listens_wait_for_pin_state|]. intros r2.
    destruct (negb (r2 =? 0)); [apply listens_ret|].
    apply listens_bind; [apply listens_time_us_32|]. intros t1.
    apply IH.
Qed.

(** After its opening calls a read only samples its pin and the clocks. *)
Lemma dht22_read_listens hw polls out w :
  initialized (dht22_state w) = true ->
  exists rest,
    calls (snd (dht22_read hw polls out w))
    = calls w ++ opening_calls hw w ++ rest /\
    forallb (listens_on (pin (dht22_state w))) rest = true.
Proof.
  intros Hi. rewrite dht22_read_unfold, Hi. cbn [negb].
  assert (C : exists rest,
             dht22_state (snd (dht22_capture hw polls w)) = dht22_state w /\
             calls (snd (dht22_capture hw polls w))
             = calls w ++ opening_calls hw w ++ rest /\
             forallb (listens_on (pin (dht22_state w))) rest = true).
  { unfold dht22_capture, opening_calls, bind, get_state, ret.
    cbn [to_ms_since_boot dht22_state calls].
    set (now := u32 (millis hw (calls w))).
    set (s := dht22_state w).
    match goal with
    | |- context [if ?c then sleep_ms ?d else _] => destruct c
    end; cbn [sleep_ms record_call dht22_state calls fst snd];
    unfold dht22_send_start_signal, bind, ret, gpio_set_dir, gpio_put,
      sleep_us, record_call;
    change (negb (DHT22_OK =? DHT22_OK)) with false;
    cbn [dht22_state calls];
    match goal with
    | |- context [dht22_wait_for_response hw polls ?q ?v] =>
        destruct (listens_dht22_wait_for_response hw polls q v)
          as (e1 & S1 & C1 & Q1);
        destruct (dht22_wait_for_response hw polls q v) as [[r|] w1]
    end; cbn [fst snd dht22_state calls] in *;
    try (exists e1; rewrite S1, C1; unfold start_signal_calls;
         repeat rewrite <- app_assoc; cbn [app]; auto);
    (destruct (negb (r =? DHT22_OK));
     [ exists e1; cbn [snd]; rewrite S1, C1; unfold start_signal_calls;
       repeat rewrite <- app_assoc; cbn [app]; auto |]);
    cbv beta iota; rewrite dht22_read_data_unfold;
    match goal with
    | |- context [dht22_read_data_from hw polls ?q ?n ?i ?d ?v] =>
        destruct (listens_dht22_read_data_from hw polls q n i d v)
          as (e2 & S2 & C2 & Q2)
    end;
    exists (e1 ++ e2); rewrite S2, C2, S1, C1, forallb_app;
    fold s in S1; rewrite S1 in Q2; rewrite Q1, Q2;
    unfold start_signal_calls; repeat rewrite <- app_assoc; cbn [app]; auto. }
  destruct C as (rest & S1 & C1 & Q1).
  destruct (dht22_capture hw polls w) as [[[r data]|] w1];
    cbn [fst snd] in *.
  - destruct (negb (r =? DHT22_OK)); cbn [snd].
    + exists rest. auto.
    + rewrite dht22_finish_run. cbn [snd calls dht22_state].
      exists (rest ++ [To_ms_since_boot (u32 (millis hw (calls w1)))]).
      rewrite C1, forallb_app, Q1, <- !app_assoc. cbn. auto.
  - exists rest. auto.
Qed.

(** ** The pin *)

Lemma fold_direction p tr :
  forall acc,
    fold_left
      (fun acc c =>
         match c with
         | Gpio_set_dir q out => if q =? p then Some out else acc
         | _ => acc
         end) tr acc
    = match direction_of p tr with
      | Some d => Some d
      | None => acc
      end.
Proof.
  unfold direction_of. induction tr as [|c tr IH]; intros acc; cbn [fold_left].
  - reflexivity.
  - rewrite IH. rewrite (IH (match c with
                             | Gpio_set_dir q out =>
                                 if q =? p then Some out else None
                             | _ => None
                             end)).
    destruct (fold_left _ tr None); [reflexivity|].
    destruct c; try reflexivity. destruct (_ =? p); reflexivity.
Qed.

Lemma direction_of_app p tr1 tr2 :
  direction_of p (tr1 ++ tr2)
  = match direction_of p tr2 with
    | Some d => Some d
    | None => direction_of p tr1
    end.
Proof.
  unfold direction_of at 1. rewrite fold_left_app.
  fold (direction_of p tr1). apply fold_direction.
Qed.

Lemma direction_of_listens p q rest :
  forallb (listens_on q) rest = true -> direction_of p rest = None.
Proof.
  induction rest as [|c rest IH]; [reflexivity|].
  cbn [forallb]. rewrite andb_true_iff. intros [Hc Hr].
  change (c :: rest) with ([c] ++ rest). rewrite direction_of_app, IH by auto.
  destruct c; try discriminate Hc; reflexivity.
Qed.

Lemma listens_on_pin p c : listens_on p c = true -> on_pin p c = true.
Proof. unfold listens_on. rewrite andb_true_iff. tauto. Qed.

(** X2. A read of the initialized driver names no pin but the driver's, in
    any of its SDK calls, and whatever its outcome (a value, a timeout or
    an exhausted poll budget) the last direction it gave the pin is
    input: the line is left to the sensor and the pull-up. *)
Theorem dht22_read_releases_pin hw polls out w :
  initialized (dht22_state w) = true ->
  let p := pin (dht22_state w) in
  let w' := snd (dht22_read hw polls out w) in
  exists new,
    calls w' = calls w ++ new /\
    forallb (on_pin p) new = true /\
    direction_of p (calls w') = Some GPIO_IN.
Proof.
  intros Hi p w'. subst w'.
  destruct (dht22_read_listens hw polls out w Hi) as (rest & C & Q).
  fold p in Q. rewrite C.
  exists (opening_calls hw w ++ rest). split; [reflexivity|].
  assert (Qp : forallb (on_pin p) rest = true).
  { rewrite forallb_forall in Q |- *. intros c Hc.
    apply listens_on_pin, Q, Hc. }
  split.
  - rewrite forallb_app, Qp, andb_true_r.
    unfold opening_calls, start_signal_calls. fold p.
    destruct (_ && _); cbn; rewrite Z.eqb_refl; reflexivity.
  - rewrite !direction_of_app, (direction_of_listens p p rest Q).
    unfold opening_calls, start_signal_calls. fold p.
    destruct (_ && _); cbn; rewrite Z.eqb_refl; reflexivity.
Qed.

(** ** Initialization *)

(** X1. From any world, [dht22_init(p)] returns OK after exactly two SDK
    calls ([gpio_init] and the pull-up) and leaves the driver initialized
    on [p] with a zero timestamp; so the read that follows is not refused
    and issues its start signal on [p] right after sampling the clock,
    without a sleep, however recent the last read before the [dht22_init]
    was. *)
Theorem dht22_init_resets hw p polls out w :
  let w1 := snd (dht22_init p w) in
  fst (dht22_init p w) = Some DHT22_OK /\
  dht22_state w1
  = {| last_read_time_ms := 0; pin := p; initialized := true |} /\
  calls w1 = calls w ++ [Gpio_init p; Gpio_set_pulls p true false] /\
  exists rest,
    calls (snd (dht22_read hw polls out w1))
    = calls w1 ++ To_ms_since_boot (u32 (millis hw (calls w1)))
                  :: start_signal_calls p ++ rest /\
    forallb is_query rest = true.
Proof.
  intros w1.
  assert (S1 : dht22_state w1
               = {| last_read_time_ms := 0; pin := p; initialized := true |})
    by reflexivity.
  split; [reflexivity|]. split; [exact S1|]. split.
  - subst w1. cbn. rewrite <- app_assoc. reflexivity.
  - assert (Hi : initialized (dht22_state w1) = true) by (rewrite S1; reflexivity).
    destruct (dht22_read_calls hw polls out w1 Hi) as (rest & C & Q & _).
    exists rest. split; [| exact Q].
    rewrite C. unfold opening_calls. rewrite S1.
    cbn [last_read_time_ms pin]. rewrite andb_false_r. reflexivity.
Qed.

(** ** The calls of a wait *)

Lemma wait_loop_trace hw polls p state timeout_us start :
  forall w r,
    fst (wait_loop hw polls p state timeout_us start w) = Some r ->
    exists ts,
      Forall (fun t => sub32 t start <= timeout_us) ts /\
      ((r = 0 /\
        calls (snd (wait_loop hw polls p state timeout_us start w))
        = calls w ++ retry_calls p state ts ++ [Gpio_get p state]) \/
       (r = -1 /\
        exists now,
          timeout_us < sub32 now start /\
          calls (snd (wait_loop hw polls p state timeout_us start w))
          = calls w ++ retry_calls p state ts
                    ++ [Gpio_get p (negb state); Time_us_32 now])).
Proof.
  induction polls as [|polls IH]; intros w r; cbn [wait_loop].
  - discriminate.
  - unfold bind. cbn [gpio_get].
    destruct (Bool.eqb _ state) eqn:E.
    + cbn. intros [= <-]. exists []. split; [constructor|]. left.
      apply eqb_prop in E. rewrite E. auto.
    + assert (Hb : level hw (calls w) p = negb state).
      { revert E. destruct (level hw (calls w) p), state; cbn; congruence. }
      rewrite Hb. cbn [time_us_32 calls dht22_state].
      set (now := u32 (micros hw (calls w ++ [Gpio_get p (negb state)]))).
      destruct (Z.gtb_spec (sub32 now start) timeout_us) as [Hgt | Hle].
      * cbn. intros [= <-]. exists []. split; [constructor|]. right.
        split; [reflexivity|]. exists now. split; [lia|].
        rewrite <- app_assoc. reflexivity.
      * intros Hr. destruct (IH _ _ Hr) as (ts & Hts & Hc).
        exists (now :: ts). split; [constructor; assumption|].
        cbn [calls] in Hc. cbn [retry_calls flat_map].
        fold (retry_calls p state ts).
        destruct Hc as [[-> Hc] | [-> (now' & Hn & Hc)]]; [left | right];
          (split; [reflexivity|]).
        -- rewrite Hc, <- !app_assoc. reflexivity.
        -- exists now'. split; [exact Hn|].
           rewrite Hc, <- !app_assoc. reflexivity.
Qed.

(** X3. The SDK calls of a [wait_for_pin_state] that returns: one clock
    reading [start]; then, for each iteration that found the pin away from
    the awaited level, that sample and a clock reading no more than
    [timeout_us] past [start] on the 32-bit counter; then either a sample
    at the awaited level (result 0, the clock not read again), or a sample
    away from it and a clock reading more than [timeout_us] past [start]
    (result -1).  It returns nothing else. *)
Theorem wait_for_pin_state_trace hw polls p state timeout_us w r :
  fst (wait_for_pin_state hw polls p state timeout_us w) = Some r ->
  let w' := snd (wait_for_pin_state hw polls p state timeout_us w) in
  dht22_state w' = dht22_state w /\
  exists start ts,
    Forall (fun t => sub32 t start <= timeout_us) ts /\
    ((r = 0 /\
      calls w' = calls w ++ Time_us_32 start :: retry_calls p state ts
                         ++ [Gpio_get p state]) \/
     (r = -1 /\
      exists now,
        timeout_us < sub32 now start /\
        calls w' = calls w ++ Time_us_32 start :: retry_calls p state ts
                           ++ [Gpio_get p (negb state); Time_us_32 now])).
Proof.
  intros Hr w'. split.
  - destruct (listens_wait_for_pin_state hw polls p state timeout_us w)
      as (ext & S & _). exact S.
  - subst w'. revert Hr. unfold wait_for_pin_state, bind.
    cbn [time_us_32]. intros Hr.
    destruct (wait_loop_trace _ _ _ _ _ _ _ _ Hr) as (ts & Hts & Hc).
    exists (u32 (micros hw (calls w))), ts. split; [exact Hts|].
    cbn [calls] in Hc.
    destruct Hc as [[-> Hc] | [-> (now & Hn & Hc)]]; [left | right];
      (split; [reflexivity|]).
    + rewrite Hc, <- app_assoc. reflexivity.
    + exists now. split; [exact Hn|]. rewrite Hc, <- app_assoc. reflexivity.
Qed.

(** ** The handshake *)

Lemma wait_for_pin_state_seen hw polls p state timeout_us w :
  fst (wait_for_pin_state hw polls p state timeout_us w) = Some 0 ->
  exists mid,
    calls (snd (wait_for_pin_state hw polls p state timeout_us w))
    = calls w ++ mid ++ [Gpio_get p state].
Proof.
  unfold wait_for_pin_state, bind. cbn [time_us_32]. intros Hr.
  destruct (wait_loop_trace _ _ _ _ _ _ _ _ Hr)
    as (ts & _ & [[_ Hc] | [Hx _]]); [| discriminate].
  cbn [calls] in Hc.
  exists (Time_us_32 (u32 (micros hw (calls w))) :: retry_calls p state ts).
  rewrite Hc, <- app_assoc. reflexivity.
Qed.

(** X5. When [dht22_wait_for_response] returns OK the pin has been sampled
    low, later high, and low again as its last call: the sensor's
    response was seen in this order.  It returns nothing but OK and
    Timeout, and leaves the driver state alone. *)
Theorem dht22_wait_for_response_seen hw polls p w r :
  fst (dht22_wait_for_response hw polls p w) = Some r ->
  let w' := snd (dht22_wait_for_response hw polls p w) in
  (r = DHT22_OK \/ r = DHT22_ERROR_TIMEOUT) /\
  dht22_state w' = dht22_state w /\
  (r = DHT22_OK ->
   exists a b c,
     calls w' = calls w ++ a ++ Gpio_get p false
                        :: b ++ Gpio_get p true
                        :: c ++ [Gpio_get p false]).
Proof.
  intros Hr w'.
  split; [exact (dht22_wait_for_response_result _ _ _ _ _ Hr)|].
  split.
  { destruct (listens_dht22_wait_for_response hw polls p w) as (e & S & _).
    exact S. }
  subst w'. revert Hr. unfold dht22_wait_for_response, bind.
  pose proof (wait_for_pin_state_seen hw polls p false
                DHT22_RESPONSE_WAIT_TIMEOUT w) as S1.
  pose proof (wait_for_pin_state_result hw polls p false
                DHT22_RESPONSE_WAIT_TIMEOUT w) as R1.
  destruct (wait_for_pin_state hw polls p false _ w) as [[r1|] w1];
    cbn [fst snd] in *; [| discriminate].
  destruct (R1 _ eq_refl) as [-> | ->]; cbn [negb Z.eqb];
    [| cbn; intros [= <-]; discriminate].
  destruct (S1 eq_refl) as (a & Ca).
  pose proof (wait_for_pin_state_seen hw polls p true
                DHT22_RESPONSE_WAIT_TIMEOUT w1) as S2.
  pose proof (wait_for_pin_state_result hw polls p true
                DHT22_RESPONSE_WAIT_TIMEOUT w1) as R2.
  destruct (wait_for_pin_state hw polls p true _ w1) as [[r2|] w2];
    cbn [fst snd] in *; [| discriminate].
  destruct (R2 _ eq_refl) as [-> | ->]; cbn [negb Z.eqb];
    [| cbn; intros [= <-]; discriminate].
  destruct (S2 eq_refl) as (b & Cb).
  pose proof (wait_for_pin_state_seen hw polls p false
                DHT22_RESPONSE_WAIT_TIMEOUT w2) as S3.
  pose proof (wait_for_pin_state_result hw polls p false
                DHT22_RESPONSE_WAIT_TIMEOUT w2) as R3.
  destruct (wait_for_pin_state hw polls p false _ w2) as [[r3|] w3];
    cbn [fst snd] in *; [| discriminate].
  destruct (R3 _ eq_refl) as [-> | ->]; cbn [negb Z.eqb];
    [| cbn; intros [= <-]; discriminate].
  destruct (S3 eq_refl) as (c & Cc).
  intros _ _. exists a, b, c. cbn [ret snd].
  rewrite Cc, Cb, Ca, <- !app_assoc. reflexivity.
Qed.

(** ** No early timeout *)

Section Timely.

Context (hw : platform).
Hypothesis Hticks : ticking hw.

Lemma wait_loop_timely p state timeout_us m0 :
  0 <= timeout_us <= 2 ^ 30 ->
  forall polls w,
    0 <= micros hw (calls w) - m0 <= timeout_us + 2 ^ 30 ->
    fst (wait_loop hw polls p state timeout_us (u32 m0) w) = Some (-1) ->
    exists tr,
      calls (snd (wait_loop hw polls p state timeout_us (u32 m0) w))
      = tr ++ [Time_us_32 (u32 (micros hw tr))] /\
      timeout_us < micros hw tr - m0.
Proof.
  intros Hto. induction polls as [|polls IH]; intros w Hd; cbn [wait_loop].
  - discriminate.
  - unfold bind. cbn [gpio_get].
    destruct (Bool.eqb _ state); [discriminate|].
    cbn [time_us_32 calls dht22_state].
    set (g := Gpio_get p (level hw (calls w) p)).
    pose proof (Hticks (calls w) g eq_refl) as T1.
    rewrite sub32_u32.
    rewrite Z.mod_small by lia.
    destruct (Z.gtb_spec (micros hw (calls w ++ [g]) - m0) timeout_us)
      as [Hgt | Hle].
    + intros _. exists (calls w ++ [g]). cbn. split; [reflexivity | lia].
    + set (c := Time_us_32 (u32 (micros hw (calls w ++ [g])))).
      pose proof (Hticks (calls w ++ [g]) c eq_refl) as T2.
      apply IH. cbn [calls]. lia.
Qed.

End Timely.

(** X4. On a platform whose microsecond counter moves on with every query, a
    [wait_for_pin_state] with a bound of at most 2^30 us gives up only
    when more than [timeout_us] microseconds of real time have passed
    between its first clock reading and its last one, wherever the 32-bit
    counter wraps in between. *)
Theorem wait_for_pin_state_no_early_timeout hw polls p state timeout_us w :
  ticking hw -> 0 <= timeout_us <= 2 ^ 30 ->
  fst (wait_for_pin_state hw polls p state timeout_us w) = Some (-1) ->
  exists tr,
    calls (snd (wait_for_pin_state hw polls p state timeout_us w))
    = tr ++ [Time_us_32 (u32 (micros hw tr))] /\
    timeout_us < micros hw tr - micros hw (calls w).
Proof.
  intros Ht Hto. unfold wait_for_pin_state, bind. cbn [time_us_32]. intros Hr.
  set (c := Time_us_32 (u32 (micros hw (calls w)))) in *.
  pose proof (Ht (calls w) c eq_refl) as T.
  apply (wait_loop_timely hw Ht p state timeout_us (micros hw (calls w)) Hto)
    in Hr; [exact Hr|].
  cbn [calls]. lia.
Qed.

(** ** A line that never changes *)

Lemma dht22_read_gives_up hw polls out w rs :
  initialized (dht22_state w) = true ->
  fst (edge_waits hw polls w) = Some rs -> In (-1) rs ->
  fst (dht22_read hw polls out w) = Some (DHT22_ERROR_TIMEOUT, out) /\
  dht22_state (snd (dht22_read hw polls out w)) = dht22_state w.
Proof.
  intros Hi Hrs Hin. rewrite dht22_read_unfold, Hi. cbn [negb].
  pose proof (dht22_capture_waits hw polls w) as W.
  destruct (dht22_capture_calls hw polls w) as (rest' & S1 & _ & _).
  destruct (dht22_capture hw polls w) as [[[code data]|] w1];
    cbn [fst snd] in *.
  - destruct W as (rs' & E & Ht). rewrite E in Hrs.
    injection Hrs as <-. rewrite (proj2 Ht Hin).
    change (negb (DHT22_ERROR_TIMEOUT =? DHT22_OK)) with true. cbv iota.
    cbn [fst snd]. auto.
  - rewrite W in Hrs. discriminate.
Qed.

Section Shorted.

Context (hw : platform).
Hypothesis Hticks : ticking hw.
Variable polls : nat.
Hypothesis Hpolls : (200 <= polls)%nat.

Lemma wait_for_pin_state_at_level p state timeout_us w :
  (1 <= polls)%nat ->
  level hw (calls w ++ [Time_us_32 (u32 (micros hw (calls w)))]) p = state ->
  fst (wait_for_pin_state hw polls p state timeout_us w) = Some 0.
Proof.
  intros Hp Hl. unfold wait_for_pin_state, bind. cbn [time_us_32].
  destruct polls as [|n]; [lia|]. cbn [wait_loop]. unfold bind.
  cbn [gpio_get calls]. rewrite Hl, eqb_reflx. reflexivity.
Qed.

(** With the line held low, the first edge wait of a read succeeds and the
    second gives up. *)
Lemma edge_waits_line_low w :
  (forall tr, level hw tr (pin (dht22_state w)) = false) ->
  fst (edge_waits hw polls w) = Some [0; -1].
Proof.
  intros Hs. unfold edge_waits, bind, get_state, ret.
  cbn [to_ms_since_boot dht22_state calls].
  match goal with
  | |- context [if ?c then sleep_ms ?d else _] => destruct c
  end; cbn [sleep_ms record_call dht22_state calls fst snd];
  unfold dht22_send_start_signal, bind, ret, gpio_set_dir, gpio_put, sleep_us,
    record_call; cbn [dht22_state calls];
  unfold handshake_waits, bind;
  match goal with
  | |- context [wait_for_pin_state hw polls ?q false ?t ?v] =>
      pose proof (wait_for_pin_state_at_level q false t v ltac:(lia)
                    (Hs _)) as W;
      destruct (listens_wait_for_pin_state hw polls q false t v)
        as (e1 & S1 & _);
      destruct (wait_for_pin_state hw polls q false t v) as [[r1|] w1];
      cbn [fst snd] in W, S1; [| discriminate]
  end; injection W as ->; cbn [negb Z.eqb];
  match goal with
  | |- context [wait_for_pin_state hw polls ?q true ?t ?v] =>
      pose proof (wait_for_pin_state_stuck hw Hticks polls Hpolls q true v
                    Hs) as W;
      destruct (wait_for_pin_state hw polls q true t v) as [[r2|] w2];
      cbn [fst] in W; [| discriminate]
  end; injection W as ->; reflexivity.
Qed.

End Shorted.

(** X6. On a platform whose microsecond counter moves on with every query and
    with 200 polls per wait, a read of the initialized driver over a line
    that never changes level, held high or held low, returns Timeout with
    the caller's cells and the driver state as before. *)
Theorem dht22_read_constant_line hw polls out w b :
  ticking hw -> (200 <= polls)%nat ->
  initialized (dht22_state w) = true ->
  (forall tr, level hw tr (pin (dht22_state w)) = b) ->
  fst (dht22_read hw polls out w) = Some (DHT22_ERROR_TIMEOUT, out) /\
  dht22_state (snd (dht22_read hw polls out w)) = dht22_state w.
Proof.
  intros Ht Hp Hi Hs. destruct b.
  - apply (dht22_read_gives_up hw polls out w [-1] Hi
             (edge_waits_line_high hw Ht polls Hp w Hs)).
    left. reflexivity.
  - apply (dht22_read_gives_up hw polls out w [0; -1] Hi
             (edge_waits_line_low hw Ht polls Hp w Hs)).
    right. left. reflexivity.
Qed.

(** ** The minimum interval on a wall clock *)

(** X7. On a platform whose millisecond clock does not go back over a query
    and moves on by at least the time asked in a [sleep_ms], a read of the
    initialized driver whose stored timestamp is not 0, not in the future
    and read on a clock still below 2^32 ms issues its start signal only
    when the clock shows at least 2000 ms more than the timestamp. *)
Theorem dht22_read_interval_elapsed hw polls out w :
  wall_clock hw ->
  initialized (dht22_state w) = true ->
  let last := last_read_time_ms (dht22_state w) in
  0 < last <= millis hw (calls w) -> millis hw (calls w) < 2 ^ 32 ->
  exists before rest,
    calls (snd (dht22_read hw polls out w))
    = before ++ start_signal_calls (pin (dht22_state w)) ++ rest /\
    last + DHT22_MIN_INTERVAL_MS <= millis hw before.
Proof.
  intros [Hq Hsl] Hi last Hl Hm.
  destruct (dht22_read_calls hw polls out w Hi) as (rest & C & _).
  unfold opening_calls in C. fold last in C.
  set (now := u32 (millis hw (calls w))) in *.
  assert (En : now = millis hw (calls w)).
  { unfold now, u32. apply Z.mod_small. lia. }
  assert (Ee : sub32 now last = now - last).
  { unfold sub32, u32. apply Z.mod_small. lia. }
  rewrite Ee in C.
  pose proof (Hq (calls w) (To_ms_since_boot now) eq_refl) as M1.
  replace (last =? 0) with false in C by (symmetry; apply Z.eqb_neq; lia).
  rewrite andb_true_r in C.
  unfold DHT22_MIN_INTERVAL_MS in *.
  destruct (Z.ltb_spec (now - last) 2000) as [Hlt | Hge].
  - assert (Es : sub32 2000 (now - last) = 2000 - (now - last)).
    { unfold sub32, u32. apply Z.mod_small. lia. }
    rewrite Es in C.
    exists (calls w ++ [To_ms_since_boot now; Sleep_ms (2000 - (now - last))]),
      rest.
    split; [rewrite C, <- !app_assoc; reflexivity|].
    pose proof (Hsl (calls w ++ [To_ms_since_boot now]) (2000 - (now - last))
                  ltac:(lia)) as M2.
    rewrite <- app_assoc in M2. cbn [app] in M2. lia.
  - exists (calls w ++ [To_ms_since_boot now]), rest.
    split; [rewrite C, <- !app_assoc; reflexivity | lia].
Qed.

(** ** What OK promises *)

(** X8. A read that returns OK hands back finite values inside the limits of
    the sensor: humidity from 0 to 100 and temperature from -40 to 80,
    decoded from a captured frame whose checksum holds. *)
Theorem dht22_read_ok_in_range hw polls out w rd :
  fst (dht22_read hw polls out w) = Some (DHT22_OK, rd) ->
  initialized (dht22_state w) = true /\
  (exists data,
     fst (dht22_capture hw polls w) = Some (DHT22_OK, data) /\
     dht22_verify_checksum data = DHT22_OK /\
     rd = snd (dht22_convert_data data)) /\
  is_finite (humidity rd) = true /\ is_finite (temperature rd) = true /\
  (0 <= SF2Q (humidity rd) <= 100)%Q /\
  (- (40) <= SF2Q (temperature rd) <= 80)%Q.
Proof.
  rewrite dht22_read_unfold.
  destruct (initialized (dht22_state w)); cbn [negb]; [| discriminate].
  pose proof (dht22_capture_result hw polls w) as R.
  destruct (dht22_capture hw polls w) as [[[code data]|] w1];
    cbn [fst snd] in *; [| discriminate].
  destruct (R _ _ eq_refl) as [[-> | ->] Hok]; [| discriminate].
  change (negb (DHT22_OK =? DHT22_OK)) with false. cbv iota.
  rewrite dht22_finish_run. cbn [fst].
  destruct (dht22_verify_checksum_result data) as [E | E]; rewrite E;
    [| discriminate].
  change (negb (DHT22_OK =? DHT22_OK)) with false. cbv iota.
  intros H.
  assert (Hf : fst (dht22_convert_data data) = DHT22_OK)
    by (injection H as H; rewrite H; reflexivity).
  assert (Hs : rd = snd (dht22_convert_data data))
    by (injection H as H; rewrite H; reflexivity).
  split; [reflexivity|]. split; [exists data; auto|].
  destruct (dht22_convert_data_spec _ Hok) as (Eh & Et & Th & Tt & Hinv & _).
  rewrite <- Hs in Eh, Et, Hinv.
  destruct (tenths_ok_facts _ Th) as (Dh & _ & _).
  destruct (tenths_ok_facts _ Tt) as (Dt & _ & _).
  split; [rewrite Eh; apply decodable_finite, Dh|].
  split; [rewrite Et; destruct (_ <? 128);
          auto using decodable_finite, decodable_opp|].
  assert (Hn : ~ (SF2Q (humidity rd) < 0 \/ 100 < SF2Q (humidity rd) \/
                  SF2Q (temperature rd) < - (40) \/
                  80 < SF2Q (temperature rd))%Q).
  { intros Ho. apply Hinv in Ho. rewrite Hf in Ho. discriminate. }
  repeat split; apply Qnot_lt_le; intros Hc; apply Hn; tauto.
Qed.

(** ** Corrupted frames *)

Lemma frame_ok_inv data :
  frame_ok data ->
  exists b0 b1 b2 b3 b4,
    data = [b0; b1; b2; b3; b4] /\
    is_u8 b0 /\ is_u8 b1 /\ is_u8 b2 /\ is_u8 b3 /\ is_u8 b4.
Proof.
  intros [Hl Hf].
  do 5 (destruct data as [|? data]; [discriminate|]).
  destruct data; [| discriminate].
  repeat match goal with
         | H : Forall _ (_ :: _) |- _ => inversion H; subst; clear H
         end.
  do 5 eexists. split; [reflexivity|]. auto.
Qed.

(** X9. A frame that passes the checksum fails it once any one of its five
    bytes is replaced by another byte. *)
Theorem dht22_verify_checksum_single_byte data i v :
  frame_ok data ->
  dht22_verify_checksum data = DHT22_OK ->
  0 <= i < 5 -> is_u8 v -> v <> ix data i ->
  dht22_verify_checksum (upd data i v) = DHT22_ERROR_CHECKSUM.
Proof.
  intros Hok Hc Hi Hv Hne.
  destruct (frame_ok_inv _ Hok) as (b0 & b1 & b2 & b3 & b4 & -> & B0 & B1 & B2
                                    & B3 & B4).
  unfold is_u8 in *.
  assert (Hcases : i = 0 \/ i = 1 \/ i = 2 \/ i = 3 \/ i = 4) by lia.
  revert Hc Hne.
  destruct Hcases as [-> | [-> | [-> | [-> | ->]]]];
    cbv [dht22_verify_checksum u8 upd upd_nat ix nth Z.to_nat Pos.to_nat
         Pos.iter_op Nat.add];
    match goal with
    | |- (if negb (?s mod 256 =? ?c) then _ else _) = _ -> _ ->
         (if negb (?s' mod 256 =? ?c') then _ else _) = _ =>
        destruct (Z.eqb_spec (s mod 256) c) as [E | NE];
        [intros _ Hne | discriminate];
        destruct (Z.eqb_spec (s' mod 256) c') as [E' | NE'];
        [exfalso | reflexivity]
    end;
    revert E E'; Z.div_mod_to_equations; lia.
Qed.

(** ** The range check on the raw counts *)

Lemma tenths_nonneg n :
  tenths_ok n = true -> 0 <= n -> (0 <= SF2Q (times_0_1 n))%Q.
Proof.
  intros T Hn. destruct (tenths_ok_facts _ T) as (_ & _ & A).
  apply Qabs_Qle_condition in A. destruct A as [A1 A2].
  unfold Qdiv in *. change (/ 10)%Q with (1 # 10)%Q in *.
  assert (N0 : (0 <= inject_Z n)%Q) by (rewrite Zle_Qle in Hn; exact Hn).
  lra.
Qed.

(** [times_0_1] is above a limit it hits exactly when the count is above
    the count of that limit. *)
Lemma tenths_above K L n :
  tenths_ok n = true -> 0 <= n < 65536 ->
  (SF2Q (times_0_1 K) == L)%Q -> (L == inject_Z K / 10)%Q ->
  (L < SF2Q (times_0_1 n))%Q <-> K < n.
Proof.
  intros T Hn EK EL. destruct (tenths_ok_facts _ T) as (_ & _ & A).
  apply Qabs_Qle_condition in A. destruct A as [A1 A2].
  unfold Qdiv in *. change (/ 10)%Q with (1 # 10)%Q in *.
  assert (N0 : (0 <= inject_Z n)%Q)
    by (change 0%Q with (inject_Z 0); rewrite <- Zle_Qle; lia).
  assert (N1 : (inject_Z n <= 65536)%Q)
    by (change 65536%Q with (inject_Z 65536); rewrite <- Zle_Qle; lia).
  destruct (Z.lt_trichotomy n K) as [Hlt | [-> | Hgt]].
  - assert (N2 : (inject_Z n + 1 <= inject_Z K)%Q).
    { change 1%Q with (inject_Z 1). rewrite <- (inject_Z_plus n 1).
      rewrite <- Zle_Qle. lia. }
    split; [intros H; exfalso; lra | lia].
  - split; [intros H; rewrite EK in H; exfalso; lra | lia].
  - assert (N2 : (inject_Z K + 1 <= inject_Z n)%Q).
    { change 1%Q with (inject_Z 1). rewrite <- (inject_Z_plus K 1).
      rewrite <- Zle_Qle. lia. }
    split; [lia | intros _; lra].
Qed.

(** X10. [dht22_convert_data] accepts a frame exactly when its humidity count is
    at most 1000 (100.0 %) and its temperature count at most 800 (80.0 C),
    or at most 400 when the sign bit is set (-40.0 C). *)
Theorem dht22_convert_data_accepts data :
  frame_ok data ->
  let h := 256 * ix data 0 + ix data 1 in
  let t := 256 * (ix data 2 mod 128) + ix data 3 in
  fst (dht22_convert_data data) = DHT22_OK <->
  h <= 1000 /\ t <= (if ix data 2 <? 128 then 800 else 400).
Proof.
  intros Hok h t.
  destruct (dht22_convert_data_spec _ Hok) as (Eh & Et & Th & Tt & Hinv & Hst).
  fold h in Eh, Th. fold t in Et, Tt.
  pose proof (frame_ok_ix data 0 Hok) as B0.
  pose proof (frame_ok_ix data 1 Hok) as B1.
  pose proof (frame_ok_ix data 2 Hok) as B2.
  pose proof (frame_ok_ix data 3 Hok) as B3.
  unfold is_u8 in *.
  assert (Rh : 0 <= h < 65536) by (unfold h; lia).
  assert (Rt : 0 <= t < 65536).
  { unfold t. pose proof (Z.mod_pos_bound (ix data 2) 128). lia. }
  pose proof (tenths_nonneg _ Th (proj1 Rh)) as Ph.
  pose proof (tenths_nonneg _ Tt (proj1 Rt)) as Pt.
  pose proof (tenths_above 1000 100 h Th Rh ltac:(reflexivity)
                ltac:(reflexivity)) as Ah.
  pose proof (tenths_above 800 80 t Tt Rt ltac:(reflexivity)
                ltac:(reflexivity)) as A8.
  pose proof (tenths_above 400 40 t Tt Rt ltac:(reflexivity)
                ltac:(reflexivity)) as A4.
  rewrite Eh, Et in Hinv.
  assert (Hopp := SF2Q_opp (times_0_1 t)).
  assert (Hcode : fst (dht22_convert_data data) = DHT22_OK <->
                  fst (dht22_convert_data data) <> DHT22_ERROR_INVALID_DATA).
  { destruct Hst as [-> | ->]; split; try discriminate; congruence. }
  rewrite Hcode, Hinv.
  destruct (ix data 2 <? 128).
  - split.
    + intros H. split.
      * destruct (Z.le_gt_cases h 1000) as [L | G]; [exact L|].
        exfalso. apply H. right. left. apply Ah in G. lra.
      * destruct (Z.le_gt_cases t 800) as [L | G]; [exact L|].
        exfalso. apply H. right. right. right. apply A8 in G. lra.
    + intros [H1 H2] [H | [H | [H | H]]].
      * lra.
      * assert (1000 < h) by (apply Ah; lra). lia.
      * lra.
      * assert (800 < t) by (apply A8; lra). lia.
  - rewrite Hopp. split.
    + intros H. split.
      * destruct (Z.le_gt_cases h 1000) as [L | G]; [exact L|].
        exfalso. apply H. right. left. apply Ah in G. lra.
      * destruct (Z.le_gt_cases t 400) as [L | G]; [exact L|].
        exfalso. apply H. right. right. left. apply A4 in G. lra.
    + intros [H1 H2] [H | [H | [H | H]]].
      * lra.
      * assert (1000 < h) by (apply Ah; lra). lia.
      * assert (400 < t) by (apply A4; lra). lia.
      * lra.
Qed.

(** ** Decoding loses nothing *)

Lemma times_0_1_inj n n' :
  tenths_ok n = true -> tenths_ok n' = true ->
  0 <= n < 65536 -> 0 <= n' < 65536 ->
  times_0_1 n = times_0_1 n' -> n = n'.
Proof.
  intros T T' Hn Hn' E.
  destruct (tenths_ok_facts _ T) as (_ & _ & A).
  destruct (tenths_ok_facts _ T') as (_ & _ & A').
  rewrite <- E in A'.
  apply Qabs_Qle_condition in A, A'.
  destruct A as [A1 A2], A' as [A1' A2'].
  unfold Qdiv in *. change (/ 10)%Q with (1 # 10)%Q in *.
  assert (N0 : (0 <= inject_Z n)%Q)
    by (change 0%Q with (inject_Z 0); rewrite <- Zle_Qle; lia).
  assert (N1 : (inject_Z n <= 65536)%Q)
    by (change 65536%Q with (inject_Z 65536); rewrite <- Zle_Qle; lia).
  assert (N0' : (0 <= inject_Z n')%Q)
    by (change 0%Q with (inject_Z 0); rewrite <- Zle_Qle; lia).
  assert (N1' : (inject_Z n' <= 65536)%Q)
    by (change 65536%Q with (inject_Z 65536); rewrite <- Zle_Qle; lia).
  assert (L1 : (inject_Z n < inject_Z (n' + 1))%Q)
    by (rewrite inject_Z_plus; change (inject_Z 1) with 1%Q; lra).
  assert (L2 : (inject_Z n' < inject_Z (n + 1))%Q)
    by (rewrite inject_Z_plus; change (inject_Z 1) with 1%Q; lra).
  rewrite <- Zlt_Qlt in L1, L2. lia.
Qed.

Lemma sign_of_opp x :
  decodable x = true -> sign_of (SFopp x) = negb (sign_of x).
Proof. destruct x; try discriminate; reflexivity. Qed.

Lemma SFopp_inj x y : SFopp x = SFopp y -> x = y.
Proof.
  destruct x as [[|] | [|] | | [|] m e], y as [[|] | [|] | | [|] m' e'];
    cbn; intros H; try discriminate; try reflexivity;
    injection H as -> ->; reflexivity.
Qed.

(** X11. Two frames that [dht22_convert_data] decodes to the same pair of
    values have the same four payload bytes: the stored floats determine
    the raw humidity and temperature counts and the sign bit. *)
Theorem dht22_convert_data_injective a b :
  frame_ok a -> frame_ok b ->
  snd (dht22_convert_data a) = snd (dht22_convert_data b) ->
  ix a 0 = ix b 0 /\ ix a 1 = ix b 1 /\ ix a 2 = ix b 2 /\ ix a 3 = ix b 3.
Proof.
  intros Ha Hb E.
  destruct (dht22_convert_data_spec _ Ha) as (Eh & Et & Th & Tt & _).
  destruct (dht22_convert_data_spec _ Hb) as (Eh' & Et' & Th' & Tt' & _).
  rewrite <- E in Eh', Et'. rewrite Eh in Eh'. rewrite Et in Et'.
  clear E Eh Et.
  pose proof (frame_ok_ix a 0 Ha) as A0. pose proof (frame_ok_ix a 1 Ha) as A1.
  pose proof (frame_ok_ix a 2 Ha) as A2. pose proof (frame_ok_ix a 3 Ha) as A3.
  pose proof (frame_ok_ix b 0 Hb) as B0. pose proof (frame_ok_ix b 1 Hb) as B1.
  pose proof (frame_ok_ix b 2 Hb) as B2. pose proof (frame_ok_ix b 3 Hb) as B3.
  unfold is_u8 in *.
  pose proof (Z.mod_pos_bound (ix a 2) 128 ltac:(lia)) as Ma.
  pose proof (Z.mod_pos_bound (ix b 2) 128 ltac:(lia)) as Mb.
  apply times_0_1_inj in Eh'; try assumption; try lia.
  assert (Hs : (ix a 2 <? 128) = (ix b 2 <? 128) /\
               256 * (ix a 2 mod 128) + ix a 3
               = 256 * (ix b 2 mod 128) + ix b 3).
  { destruct (tenths_ok_facts _ Tt) as (Dt & St & _).
    destruct (tenths_ok_facts _ Tt') as (Dt' & St' & _).
    destruct (ix a 2 <? 128), (ix b 2 <? 128).
    - split; [reflexivity|].
      apply times_0_1_inj in Et'; try assumption; lia.
    - exfalso. apply (f_equal sign_of) in Et'.
      rewrite sign_of_opp, St, St' in Et' by assumption. discriminate.
    - exfalso. apply (f_equal sign_of) in Et'.
      rewrite sign_of_opp, St, St' in Et' by assumption. discriminate.
    - split; [reflexivity|].
      apply SFopp_inj, times_0_1_inj in Et'; try assumption; lia. }
  destruct Hs as [Hs Hc].
  assert (E2 : ix a 2 = ix b 2).
  { destruct (Z.ltb_spec (ix a 2) 128), (Z.ltb_spec (ix b 2) 128);
      try discriminate; revert Hc; Z.div_mod_to_equations; lia. }
  rewrite E2 in Hc. repeat split; lia.
Qed.

(** ** The capture reassembles the bytes sent *)

Lemma byte_eq_bits x y :
  is_u8 x -> is_u8 y ->
  (forall k, 0 <= k < 8 -> Z.testbit x k = Z.testbit y k) -> x = y.
Proof.
  unfold is_u8. intros Hx Hy H. apply Z.bits_inj'. intros n Hn.
  destruct (Z.lt_ge_cases n 8) as [L | G]; [apply H; lia|].
  rewrite <- (Z.mod_small x (2 ^ 8)), <- (Z.mod_small y (2 ^ 8))
    by (change (2 ^ 8) with 256; lia).
  rewrite !Z.mod_pow2_bits_high by lia. reflexivity.
Qed.

Lemma wire_bits_nth frame i :
  length frame = 5%nat -> 0 <= i < 40 ->
  nth (Z.to_nat i) (wire_bits frame) false = frame_bit frame i.
Proof.
  intros Hl Hi.
  do 5 (destruct frame as [|? frame]; [discriminate|]).
  destruct frame; [| discriminate].
  rewrite <- (Z2Nat.id i) at 2 by lia.
  assert (Hn : (Z.to_nat i < 40)%nat) by lia.
  revert Hn. generalize (Z.to_nat i) as n. intros n Hn.
  do 40 (destruct n as [|n]; [reflexivity|]). lia.
Qed.

Lemma frame_bit_byte data j k :
  0 <= j -> 0 <= k < 8 ->
  frame_bit data (8 * j + (7 - k)) = Z.testbit (ix data j) k.
Proof.
  intros Hj Hk. unfold frame_bit.
  replace (8 * j + (7 - k)) with ((7 - k) + j * 8) by lia.
  rewrite Z.div_add, Z.mod_add by lia.
  rewrite Z.div_small, Z.mod_small by lia.
  rewrite Z.add_0_l. f_equal. lia.
Qed.

(** Pulses that classify as the bits of [frame], in wire order, store
    [frame]. *)
Lemma store_bits_wire frame ps :
  frame_ok frame ->
  map bit_of_pulse ps = wire_bits frame ->
  store_bits 0 ps [0; 0; 0; 0; 0] = frame.
Proof.
  intros Hok Hw.
  assert (Hlen : length ps = 40%nat).
  { rewrite <- (length_map bit_of_pulse), Hw.
    destruct (frame_ok_inv _ Hok) as (b0 & b1 & b2 & b3 & b4 & -> & _).
    reflexivity. }
  pose proof (frame_ok_store_bits ps 0 _ frame_ok_zero) as Hd.
  assert (Hbits : forall i, 0 <= i < 40 ->
            frame_bit (store_bits 0 ps [0; 0; 0; 0; 0]) i = frame_bit frame i).
  { intros i Hi.
    rewrite frame_bit_store_bits by (auto using frame_ok_zero; lia).
    rewrite frame_bit_zero, orb_false_r, Z.sub_0_r, Z.add_0_l, Hlen.
    replace (0 <=? i) with true by (symmetry; apply Z.leb_le; lia).
    replace (i <? Z.of_nat 40) with true by (symmetry; apply Z.ltb_lt; lia).
    rewrite !andb_true_l.
    rewrite <- wire_bits_nth by (apply Hok || exact Hi).
    rewrite <- Hw.
    change false with (bit_of_pulse 0). symmetry. apply map_nth. }
  assert (Hix : forall j, 0 <= j < 5 ->
            ix (store_bits 0 ps [0; 0; 0; 0; 0]) j = ix frame j).
  { intros j Hj. apply byte_eq_bits; try (apply frame_ok_ix; assumption).
    intros k Hk. rewrite <- !frame_bit_byte by lia. apply Hbits. lia. }
  destruct (frame_ok_inv _ Hd) as (d0 & d1 & d2 & d3 & d4 & Ed & _).
  destruct (frame_ok_inv _ Hok) as (b0 & b1 & b2 & b3 & b4 & -> & _).
  rewrite Ed in Hix |- *.
  pose proof (Hix 0 ltac:(lia)) as E0. pose proof (Hix 1 ltac:(lia)) as E1.
  pose proof (Hix 2 ltac:(lia)) as E2. pose proof (Hix 3 ltac:(lia)) as E3.
  pose proof (Hix 4 ltac:(lia)) as E4.
  cbv [ix nth Z.to_nat Pos.to_nat Pos.iter_op Nat.add] in E0, E1, E2, E3, E4.
  congruence.
Qed.

(** X12. When the 40 pulses the capture loop measures classify, in order, as
    the bits of a frame sent most significant bit first, the loop returns
    OK with exactly that frame in the buffer. *)
Theorem dht22_read_data_round_trip hw polls p w frame ps :
  frame_ok frame ->
  fst (measured_pulses hw polls p 40 w) = Some ps ->
  map bit_of_pulse ps = wire_bits frame ->
  fst (dht22_read_data hw polls p [0; 0; 0; 0; 0] w) = Some (DHT22_OK, frame).
Proof.
  intros Hok Hm Hw. rewrite dht22_read_data_unfold.
  pose proof (dht22_read_data_from_pulses hw polls p 40 0 [0; 0; 0; 0; 0] w)
    as P.
  destruct (dht22_read_data_from hw polls p 40 0 [0; 0; 0; 0; 0] w)
    as [[[r d]|] w']; cbn [fst snd] in *.
  - destruct P as (ps' & Hm' & -> & _ & Hr). rewrite Hm' in Hm.
    injection Hm as ->.
    assert (Hlen : length ps = 40%nat).
    { rewrite <- (length_map bit_of_pulse), Hw.
      destruct (frame_ok_inv _ Hok) as (b0 & b1 & b2 & b3 & b4 & -> & _).
      reflexivity. }
    rewrite (proj2 Hr Hlen), (store_bits_wire frame ps Hok Hw). reflexivity.
  - rewrite P in Hm. discriminate.
Qed.

(** * Concrete runs *)

(** C7 at boot, before any [dht22_init]. *)
Lemma dht22_read_not_initialized_witness :
  initialized (dht22_state Sim.boot) = false /\
  dht22_read (Sim.unplugged 0) 40 Sim.no_reading Sim.boot
  = (Some (DHT22_ERROR_NOT_INITIALIZED, Sim.no_reading), Sim.boot).
Proof.
  split; [reflexivity|].
  apply (dht22_read_not_initialized (Sim.unplugged 0) 40 Sim.no_reading
           Sim.boot).
  reflexivity.
Defined.

(** C10 for the first read after [dht22_init(15)]. *)
Lemma dht22_read_zero_timestamp_no_wait_witness :
  initialized (dht22_state (Sim.after_init 15)) = true /\
  last_read_time_ms (dht22_state (Sim.after_init 15)) = 0 /\
  exists rest,
    calls (snd (dht22_read (Sim.unplugged 0) 40 Sim.no_reading
                  (Sim.after_init 15)))
    = calls (Sim.after_init 15)
      ++ To_ms_since_boot
           (u32 (millis (Sim.unplugged 0) (calls (Sim.after_init 15))))
         :: start_signal_calls (pin (dht22_state (Sim.after_init 15)))
         ++ rest.
Proof.
  split; [reflexivity|]. split; [reflexivity|].
  destruct (dht22_read_zero_timestamp_no_wait (Sim.unplugged 0) 40
              Sim.no_reading (Sim.after_init 15) eq_refl eq_refl)
    as (rest & C & _).
  exists rest. exact C.
Defined.

(** X13 for a second read made right after a first one. *)
Lemma dht22_read_min_interval_witness :
  initialized (dht22_state Sim.after_first_read) = true /\
  last_read_time_ms (dht22_state Sim.after_first_read) <> 0 /\
  sub32 (u32 (millis Sim.mild (calls Sim.after_first_read)))
        (last_read_time_ms (dht22_state Sim.after_first_read))
  < DHT22_MIN_INTERVAL_MS /\
  exists rest,
    calls (snd (dht22_read Sim.mild 40 Sim.no_reading Sim.after_first_read))
    = calls Sim.after_first_read
      ++ To_ms_since_boot (u32 (millis Sim.mild (calls Sim.after_first_read)))
         :: Sleep_ms
              (DHT22_MIN_INTERVAL_MS
               - sub32 (u32 (millis Sim.mild (calls Sim.after_first_read)))
                       (last_read_time_ms
                          (dht22_state Sim.after_first_read)))
         :: start_signal_calls (pin (dht22_state Sim.after_first_read))
         ++ rest.
Proof.
  assert (H : initialized (dht22_state Sim.after_first_read) = true /\
              last_read_time_ms (dht22_state Sim.after_first_read) <> 0 /\
              sub32 (u32 (millis Sim.mild (calls Sim.after_first_read)))
                    (last_read_time_ms (dht22_state Sim.after_first_read))
              < DHT22_MIN_INTERVAL_MS)
    by (vm_compute; split; [reflexivity | split; [lia | reflexivity]]).
  destruct H as (H1 & H2 & H3).
  split; [exact H1|]. split; [exact H2|]. split; [exact H3|].
  destruct (dht22_read_min_interval Sim.mild 40 Sim.no_reading
              Sim.after_first_read H1 H2 H3)
    as (rest & C & _).
  exists rest. exact C.
Defined.

(** C6 for a read whose frame fails the checksum. *)
Lemma dht22_read_timestamp_witness :
  initialized (dht22_state (Sim.after_init 15)) = true /\
  fst (dht22_capture (Sim.sensor 5000000 (Sim.waveform Sim.frame_corrupt)) 40
         (Sim.after_init 15))
  = Some (DHT22_OK, Sim.frame_corrupt) /\
  last_read_time_ms
    (dht22_state
       (snd (dht22_read (Sim.sensor 5000000 (Sim.waveform Sim.frame_corrupt))
               40 Sim.no_reading (Sim.after_init 15))))
  = u32 (millis (Sim.sensor 5000000 (Sim.waveform Sim.frame_corrupt))
           (calls (snd (dht22_capture
                          (Sim.sensor 5000000 (Sim.waveform Sim.frame_corrupt))
                          40 (Sim.after_init 15))))).
Proof.
  assert (H1 : initialized (dht22_state (Sim.after_init 15)) = true)
    by reflexivity.
  assert (H2 : fst (dht22_capture
                      (Sim.sensor 5000000 (Sim.waveform Sim.frame_corrupt)) 40
                      (Sim.after_init 15))
               = Some (DHT22_OK, Sim.frame_corrupt))
    by (vm_compute; reflexivity).
  split; [exact H1|]. split; [exact H2|].
  destruct (dht22_read_timestamp
              (Sim.sensor 5000000 (Sim.waveform Sim.frame_corrupt)) 40
              Sim.no_reading (Sim.after_init 15) H1) as (A & _).
  destruct (A Sim.frame_corrupt H2) as (_ & _ & T & _).
  exact T.
Defined.

(** C9 with no sensor on the line. *)
Lemma dht22_read_edge_timeout_witness :
  initialized (dht22_state (Sim.after_init 15)) = true /\
  fst (edge_waits (Sim.unplugged 0) 40 (Sim.after_init 15)) = Some [-1] /\
  In (-1) [-1] /\
  fst (dht22_read (Sim.unplugged 0) 40 Sim.no_reading (Sim.after_init 15))
  = Some (DHT22_ERROR_TIMEOUT, Sim.no_reading) /\
  dht22_state
    (snd (dht22_read (Sim.unplugged 0) 40 Sim.no_reading (Sim.after_init 15)))
  = dht22_state (Sim.after_init 15).
Proof.
  assert (H1 : initialized (dht22_state (Sim.after_init 15)) = true)
    by reflexivity.
  assert (H2 : fst (edge_waits (Sim.unplugged 0) 40 (Sim.after_init 15))
               = Some [-1])
    by (vm_compute; reflexivity).
  assert (H3 : In (-1) [-1]) by (left; reflexivity).
  split; [exact H1|]. split; [exact H2|]. split; [exact H3|].
  destruct (dht22_read_edge_timeout (Sim.unplugged 0) 40 Sim.no_reading
              (Sim.after_init 15) H1) as (A & _).
  exact (A [-1] H2 H3).
Defined.

(** C2 for a read whose frame fails the checksum. *)
Lemma dht22_verify_checksum_spec_witness :
  initialized (dht22_state (Sim.after_init 15)) = true /\
  fst (dht22_capture (Sim.sensor 5000000 (Sim.waveform Sim.frame_corrupt)) 40
         (Sim.after_init 15))
  = Some (DHT22_OK, Sim.frame_corrupt) /\
  ix Sim.frame_corrupt 4
  <> (ix Sim.frame_corrupt 0 + ix Sim.frame_corrupt 1
      + ix Sim.frame_corrupt 2 + ix Sim.frame_corrupt 3) mod 256 /\
  fst (dht22_read (Sim.sensor 5000000 (Sim.waveform Sim.frame_corrupt)) 40
         Sim.no_reading (Sim.after_init 15))
  = Some (DHT22_ERROR_CHECKSUM, Sim.no_reading).
Proof.
  assert (H1 : initialized (dht22_state (Sim.after_init 15)) = true)
    by reflexivity.
  assert (H2 : fst (dht22_capture
                      (Sim.sensor 5000000 (Sim.waveform Sim.frame_corrupt)) 40
                      (Sim.after_init 15))
               = Some (DHT22_OK, Sim.frame_corrupt))
    by (vm_compute; reflexivity).
  assert (H3 : ix Sim.frame_corrupt 4
               <> (ix Sim.frame_corrupt 0 + ix Sim.frame_corrupt 1
                   + ix Sim.frame_corrupt 2 + ix Sim.frame_corrupt 3)
                  mod 256)
    by (vm_compute; lia).
  split; [exact H1|]. split; [exact H2|]. split; [exact H3|].
  exact (proj2 dht22_verify_checksum_spec
           (Sim.sensor 5000000 (Sim.waveform Sim.frame_corrupt)) 40%nat
           Sim.no_reading (Sim.after_init 15) Sim.frame_corrupt H1 H2 H3).
Defined.

(** C3 for the capture of 50.0 % at 20.0 C. *)
Lemma dht22_read_data_bits_witness :
  fst (dht22_read_data (Sim.sensor 5000000 (Sim.waveform Sim.frame_mild)) 40
         15 [0; 0; 0; 0; 0] (Sim.listening Sim.frame_mild 15))
  = Some (DHT22_OK, Sim.frame_mild) /\
  exists ps,
    measured_pulses (Sim.sensor 5000000 (Sim.waveform Sim.frame_mild)) 40 15
      40 (Sim.listening Sim.frame_mild 15)
    = (Some ps,
       snd (dht22_read_data (Sim.sensor 5000000 (Sim.waveform Sim.frame_mild))
              40 15 [0; 0; 0; 0; 0] (Sim.listening Sim.frame_mild 15))) /\
    (forall i, 0 <= i < 40 ->
       frame_bit Sim.frame_mild i
       = (i <? Z.of_nat (length ps)) && bit_of_pulse (nth (Z.to_nat i) ps 0)).
Proof.
  assert (H1 : fst (dht22_read_data
                      (Sim.sensor 5000000 (Sim.waveform Sim.frame_mild)) 40
                      15 [0; 0; 0; 0; 0] (Sim.listening Sim.frame_mild 15))
               = Some (DHT22_OK, Sim.frame_mild))
    by (vm_compute; reflexivity).
  split; [exact H1|].
  destruct (dht22_read_data_bits
              (Sim.sensor 5000000 (Sim.waveform Sim.frame_mild)) 40 15
              (Sim.listening Sim.frame_mild 15)) as (_ & _ & _ & A).
  destruct (A DHT22_OK Sim.frame_mild H1) as (ps & Hm & _ & _ & _ & Hb).
  exists ps. split; [exact Hm | exact Hb].
Defined.

(** C4 for a frame that says 150.0 %. *)
Lemma dht22_read_rejects_out_of_range_witness :
  initialized (dht22_state (Sim.after_init 15)) = true /\
  fst (dht22_capture (Sim.sensor 5000000 (Sim.waveform Sim.frame_humid)) 40
         (Sim.after_init 15))
  = Some (DHT22_OK, Sim.frame_humid) /\
  dht22_verify_checksum Sim.frame_humid = DHT22_OK /\
  fst (dht22_read (Sim.sensor 5000000 (Sim.waveform Sim.frame_humid)) 40
         Sim.no_reading (Sim.after_init 15))
  = Some (DHT22_ERROR_INVALID_DATA,
          snd (dht22_convert_data Sim.frame_humid)).
Proof.
  assert (H1 : initialized (dht22_state (Sim.after_init 15)) = true)
    by reflexivity.
  assert (H2 : fst (dht22_capture
                      (Sim.sensor 5000000 (Sim.waveform Sim.frame_humid)) 40
                      (Sim.after_init 15))
               = Some (DHT22_OK, Sim.frame_humid))
    by (vm_compute; reflexivity).
  assert (H3 : dht22_verify_checksum Sim.frame_humid = DHT22_OK)
    by reflexivity.
  split; [exact H1|]. split; [exact H2|]. split; [exact H3|].
  destruct (dht22_read_rejects_out_of_range
              (Sim.sensor 5000000 (Sim.waveform Sim.frame_humid)) 40
              Sim.no_reading (Sim.after_init 15) Sim.frame_humid H1 H2 H3)
    as (_ & _ & A & _).
  exact (proj2 (A eq_refl eq_refl)).
Defined.

(** C1 for 50.0 % at -20.0 C. *)
Lemma dht22_convert_data_values_witness :
  is_u8 1 /\ is_u8 244 /\ is_u8 128 /\ is_u8 200 /\ is_u8 61 /\
  (SF2Q (humidity (snd (dht22_convert_data [1; 244; 128; 200; 61]%Z)))
   == 50)%Q /\
  (SF2Q (temperature (snd (dht22_convert_data [1; 244; 128; 200; 61]%Z)))
   == - (20))%Q.
Proof.
  assert (H0 : is_u8 1) by (unfold is_u8; lia).
  assert (H1 : is_u8 244) by (unfold is_u8; lia).
  assert (H2 : is_u8 128) by (unfold is_u8; lia).
  assert (H3 : is_u8 200) by (unfold is_u8; lia).
  assert (H4 : is_u8 61) by (unfold is_u8; lia).
  repeat (split; [assumption|]).
  destruct (dht22_convert_data_values 1 244 128 200 61 H0 H1 H2 H3 H4)
    as (_ & _ & _ & _ & _ & _ & A & _ & B).
  split; [exact (A eq_refl eq_refl) | exact (B eq_refl eq_refl)].
Defined.

(** C8 for a reference weight of -5 and for the initial scale factor. *)
Lemma hx711_guards_witness :
  HX711.zero_or_negative (float_of_int (-5)) /\
  HX711.is_zero HX711.scale_factor_initial /\
  HX711.calibrate_hx711 1000 (float_of_int (-5)) (float_of_int 200)
  = (HX711.Hx_rejected, float_of_int 200) /\
  HX711.calculate_weight 400 HX711.scale_factor_initial = HX711.Hx_rejected.
Proof.
  assert (H1 : HX711.zero_or_negative (float_of_int (-5))) by reflexivity.
  assert (H2 : HX711.is_zero HX711.scale_factor_initial) by exact I.
  split; [exact H1|]. split; [exact H2|].
  destruct (hx711_guards 1000 400 (float_of_int (-5)) (float_of_int 200))
    as (A & _).
  destruct (hx711_guards 1000 400 (float_of_int (-5))
              HX711.scale_factor_initial) as (_ & _ & B & _).
  split; [exact (A H1) | exact (B H2)].
Defined.

(** With a zero timestamp a read never opens with a sleep, whatever the
    clock reads. *)
Lemma dht22_read_zero_timestamp_never_sleeps hw polls out w d :
  initialized (dht22_state w) = true ->
  last_read_time_ms (dht22_state w) = 0 ->
  ~ (exists rest,
       calls (snd (dht22_read hw polls out w))
       = calls w
         ++ To_ms_since_boot (u32 (millis hw (calls w)))
            :: Sleep_ms d :: start_signal_calls (pin (dht22_state w))
            ++ rest).
Proof.
  intros Hi Hl (rest & E).
  destruct (dht22_read_calls hw polls out w Hi) as (rest' & C & _).
  rewrite C in E. apply app_inv_head in E.
  unfold opening_calls in E. rewrite Hl, andb_false_r in E.
  cbn [app] in E. injection E as E.
  unfold start_signal_calls in E. cbn [app] in E. discriminate E.
Qed.

(** C5.  The minimum interval is not kept after a read that records the
    timestamp 0.  A first read of the initialized driver ends its capture
    just as the 32-bit millisecond counter wraps: it returns OK and records
    the timestamp 0, the value [dht22_init] stores for "no read yet".  The
    next read, made within the same millisecond, is less than 2000 ms after
    that read, and yet it issues its start signal right after sampling the
    clock: it does not sleep for the remainder. *)
Lemma dht22_read_min_interval_counterexample :
  fst Sim.wrapping_read
  = Some (DHT22_OK, snd (dht22_convert_data Sim.frame_mild)) /\
  initialized (dht22_state Sim.after_wrapping_read) = true /\
  last_read_time_ms (dht22_state Sim.after_wrapping_read) = 0 /\
  sub32 (u32 (millis Sim.wrapping (calls Sim.after_wrapping_read)))
        (last_read_time_ms (dht22_state Sim.after_wrapping_read))
  < DHT22_MIN_INTERVAL_MS /\
  (exists rest,
     calls (snd (dht22_read Sim.wrapping 40 Sim.no_reading
                   Sim.after_wrapping_read))
     = calls Sim.after_wrapping_read
       ++ To_ms_since_boot 0 :: start_signal_calls 15 ++ rest /\
     forallb is_query rest = true) /\
  ~ (exists rest,
       calls (snd (dht22_read Sim.wrapping 40 Sim.no_reading
                     Sim.after_wrapping_read))
       = calls Sim.after_wrapping_read
         ++ To_ms_since_boot
              (u32 (millis Sim.wrapping (calls Sim.after_wrapping_read)))
            :: Sleep_ms
                 (DHT22_MIN_INTERVAL_MS
                  - sub32 (u32 (millis Sim.wrapping
                                  (calls Sim.after_wrapping_read)))
                          (last_read_time_ms
                             (dht22_state Sim.after_wrapping_read)))
            :: start_signal_calls (pin (dht22_state Sim.after_wrapping_read))
            ++ rest).
Proof.
  assert (H : fst Sim.wrapping_read
              = Some (DHT22_OK, snd (dht22_convert_data Sim.frame_mild)) /\
              initialized (dht22_state Sim.after_wrapping_read) = true /\
              last_read_time_ms (dht22_state Sim.after_wrapping_read) = 0 /\
              sub32 (u32 (millis Sim.wrapping
                            (calls Sim.after_wrapping_read)))
                    (last_read_time_ms (dht22_state Sim.after_wrapping_read))
              < DHT22_MIN_INTERVAL_MS /\
              opening_calls Sim.wrapping Sim.after_wrapping_read
              = To_ms_since_boot 0 :: start_signal_calls 15)
    by (vm_compute; repeat split).
  destruct H as (H0 & Hi & Hl & He & Ho).
  split; [exact H0|]. split; [exact Hi|]. split; [exact Hl|].
  split; [exact He|]. split.
  - destruct (dht22_read_calls Sim.wrapping 40 Sim.no_reading
                Sim.after_wrapping_read Hi) as (rest & C & Q & _).
    exists rest. rewrite Ho in C. split; [exact C | exact Q].
  - apply dht22_read_zero_timestamp_never_sleeps; assumption.
Qed.

(** A complete read of the simulated sensor: 50.0 % at 20.0 C. *)
Example sim_read_mild :
  fst Sim.first_read
  = Some (DHT22_OK,
          {| temperature := float_of_int 20; humidity := float_of_int 50 |}).
Proof. vm_compute. reflexivity. Qed.

(** The pulses it measures for the first byte, 0x01. *)
Example sim_pulses_mild :
  option_map (firstn 8)
    (fst (measured_pulses (Sim.sensor 5000000 (Sim.waveform Sim.frame_mild))
            40 15 40 (Sim.listening Sim.frame_mild 15)))
  = Some [25; 25; 25; 25; 25; 25; 25; 73].
Proof. vm_compute. reflexivity. Qed.

(** A second read of the simulated sensor, made in the millisecond in
    which the first one ended, sleeps 2000 ms before its start signal (its
    opening calls, here with no polls to spend afterwards). *)
Example sim_second_read_sleeps :
  firstn 3 (skipn (length (calls Sim.after_first_read))
              (calls (snd (dht22_read Sim.mild 0 Sim.no_reading
                             Sim.after_first_read))))
  = [To_ms_since_boot 5021; Sleep_ms 2000; Gpio_set_dir 15 GPIO_OUT].
Proof. vm_compute. reflexivity. Qed.

(** ** Runs for the further properties *)

(** The simulated boards keep wall-clock time. *)
Lemma sensor_wall_clock boot_us wave : wall_clock (Sim.sensor boot_us wave).
Proof.
  split.
  - intros tr c Hc. cbn [millis Sim.sensor]. unfold Sim.elapsed_us.
    rewrite fold_left_app. cbn [fold_left].
    apply Z.div_le_mono; [lia|].
    destruct c; try discriminate Hc; cbn [Sim.call_cost]; lia.
  - intros tr ms Hms. cbn [millis Sim.sensor]. unfold Sim.elapsed_us.
    rewrite fold_left_app. cbn [fold_left Sim.call_cost].
    rewrite Z.add_assoc, (Z.mul_comm 1000 ms), Z.div_add by lia. lia.
Qed.

Lemma held_low_ticking : ticking held_low.
Proof.
  intros tr c _. cbn [micros held_low]. rewrite length_app. cbn [length]. lia.
Qed.

(** X2 for a read with no sensor on the line. *)
Lemma dht22_read_releases_pin_witness :
  initialized (dht22_state (Sim.after_init 15)) = true /\
  direction_of 15
    (calls (snd (dht22_read (Sim.unplugged 0) 40 Sim.no_reading
                   (Sim.after_init 15))))
  = Some GPIO_IN.
Proof.
  split; [reflexivity|].
  destruct (dht22_read_releases_pin (Sim.unplugged 0) 40 Sim.no_reading
              (Sim.after_init 15) eq_refl) as (new & _ & _ & D).
  exact D.
Defined.

(** X3 for a wait that finds the released line high at once. *)
Lemma wait_for_pin_state_trace_witness :
  fst (wait_for_pin_state (Sim.unplugged 0) 40 15 true 200 (Sim.after_init 15))
  = Some 0 /\
  dht22_state
    (snd (wait_for_pin_state (Sim.unplugged 0) 40 15 true 200
            (Sim.after_init 15)))
  = dht22_state (Sim.after_init 15).
Proof.
  assert (H : fst (wait_for_pin_state (Sim.unplugged 0) 40 15 true 200
                     (Sim.after_init 15)) = Some 0) by reflexivity.
  split; [exact H|].
  exact (proj1 (wait_for_pin_state_trace (Sim.unplugged 0) 40 15 true 200
                  (Sim.after_init 15) 0 H)).
Defined.

(** X4 for a wait for a low level with no sensor on the line. *)
Lemma wait_for_pin_state_no_early_timeout_witness :
  0 <= 200 <= 2 ^ 30 /\
  fst (wait_for_pin_state (Sim.unplugged 0) 40 15 false 200
         (Sim.after_init 15)) = Some (-1) /\
  exists tr,
    calls (snd (wait_for_pin_state (Sim.unplugged 0) 40 15 false 200
                  (Sim.after_init 15)))
    = tr ++ [Time_us_32 (u32 (micros (Sim.unplugged 0) tr))] /\
    200 < micros (Sim.unplugged 0) tr
          - micros (Sim.unplugged 0) (calls (Sim.after_init 15)).
Proof.
  assert (H1 : 0 <= 200 <= 2 ^ 30) by lia.
  assert (H2 : fst (wait_for_pin_state (Sim.unplugged 0) 40 15 false 200
                      (Sim.after_init 15)) = Some (-1))
    by (vm_compute; reflexivity).
  split; [exact H1|]. split; [exact H2|].
  exact (wait_for_pin_state_no_early_timeout (Sim.unplugged 0) 40 15 false
           200 (Sim.after_init 15) (sensor_ticking 0 []) H1 H2).
Defined.

(** X5 for the response of the simulated sensor to a start signal. *)
Lemma dht22_wait_for_response_seen_witness :
  fst (dht22_wait_for_response Sim.mild 40 15
         (snd (dht22_send_start_signal 15 (Sim.after_init 15))))
  = Some DHT22_OK /\
  exists a b c,
    calls (snd (dht22_wait_for_response Sim.mild 40 15
                  (snd (dht22_send_start_signal 15 (Sim.after_init 15)))))
    = calls (snd (dht22_send_start_signal 15 (Sim.after_init 15)))
      ++ a ++ Gpio_get 15 false :: b ++ Gpio_get 15 true
      :: c ++ [Gpio_get 15 false].
Proof.
  assert (H : fst (dht22_wait_for_response Sim.mild 40 15
                     (snd (dht22_send_start_signal 15 (Sim.after_init 15))))
              = Some DHT22_OK)
    by (vm_compute; reflexivity).
  split; [exact H|].
  destruct (dht22_wait_for_response_seen Sim.mild 40 15
              (snd (dht22_send_start_signal 15 (Sim.after_init 15)))
              DHT22_OK H) as (_ & _ & A).
  exact (A eq_refl).
Defined.

(** X6 for a line shorted to ground. *)
Lemma dht22_read_constant_line_witness :
  (200 <= 200)%nat /\
  initialized (dht22_state (Sim.ready 15 0)) = true /\
  (forall tr, level held_low tr (pin (dht22_state (Sim.ready 15 0))) = false) /\
  fst (dht22_read held_low 200 Sim.no_reading (Sim.ready 15 0))
  = Some (DHT22_ERROR_TIMEOUT, Sim.no_reading).
Proof.
  assert (H1 : (200 <= 200)%nat) by lia.
  assert (H2 : initialized (dht22_state (Sim.ready 15 0)) = true)
    by reflexivity.
  assert (H3 : forall tr,
            level held_low tr (pin (dht22_state (Sim.ready 15 0))) = false)
    by (intros tr; reflexivity).
  split; [exact H1|]. split; [exact H2|]. split; [exact H3|].
  exact (proj1 (dht22_read_constant_line held_low 200 Sim.no_reading
                  (Sim.ready 15 0) false held_low_ticking H1 H2 H3)).
Defined.

(** X7 for a read made one second after the stored timestamp. *)
Lemma dht22_read_interval_elapsed_witness :
  initialized (dht22_state (Sim.ready 15 4000)) = true /\
  0 < last_read_time_ms (dht22_state (Sim.ready 15 4000))
  <= millis Sim.mild (calls (Sim.ready 15 4000)) /\
  millis Sim.mild (calls (Sim.ready 15 4000)) < 2 ^ 32 /\
  exists before rest,
    calls (snd (dht22_read Sim.mild 40 Sim.no_reading (Sim.ready 15 4000)))
    = before ++ start_signal_calls (pin (dht22_state (Sim.ready 15 4000)))
      ++ rest /\
    last_read_time_ms (dht22_state (Sim.ready 15 4000))
    + DHT22_MIN_INTERVAL_MS <= millis Sim.mild before.
Proof.
  assert (H1 : initialized (dht22_state (Sim.ready 15 4000)) = true)
    by reflexivity.
  assert (H2 : 0 < last_read_time_ms (dht22_state (Sim.ready 15 4000))
               <= millis Sim.mild (calls (Sim.ready 15 4000)))
    by (vm_compute; split; [reflexivity | discriminate]).
  assert (H3 : millis Sim.mild (calls (Sim.ready 15 4000)) < 2 ^ 32)
    by (vm_compute; reflexivity).
  split; [exact H1|]. split; [exact H2|]. split; [exact H3|].
  exact (dht22_read_interval_elapsed Sim.mild 40 Sim.no_reading
           (Sim.ready 15 4000) (sensor_wall_clock _ _) H1 H2 H3).
Defined.

(** X8 for the read of 50.0 % at 20.0 C. *)
Lemma dht22_read_ok_in_range_witness :
  fst (dht22_read Sim.mild 40 Sim.no_reading (Sim.after_init 15))
  = Some (DHT22_OK,
          {| temperature := float_of_int 20; humidity := float_of_int 50 |}) /\
  (0 <= SF2Q (float_of_int 50) <= 100)%Q /\
  (- (40) <= SF2Q (float_of_int 20) <= 80)%Q.
Proof.
  assert (H : fst (dht22_read Sim.mild 40 Sim.no_reading (Sim.after_init 15))
              = Some (DHT22_OK,
                      {| temperature := float_of_int 20;
                         humidity := float_of_int 50 |}))
    by (vm_compute; reflexivity).
  split; [exact H|].
  destruct (dht22_read_ok_in_range Sim.mild 40 Sim.no_reading
              (Sim.after_init 15) _ H) as (_ & _ & _ & _ & A & B).
  split; [exact A | exact B].
Defined.

(** X9 for the frame of 50.0 % at 20.0 C with byte 1 cleared. *)
Lemma dht22_verify_checksum_single_byte_witness :
  frame_ok Sim.frame_mild /\
  dht22_verify_checksum Sim.frame_mild = DHT22_OK /\
  0 <= 1 < 5 /\ is_u8 0 /\ 0 <> ix Sim.frame_mild 1 /\
  dht22_verify_checksum (upd Sim.frame_mild 1 0) = DHT22_ERROR_CHECKSUM.
Proof.
  assert (H1 : frame_ok Sim.frame_mild).
  { split; [reflexivity|].
    repeat (constructor; [unfold is_u8; lia|]). constructor. }
  assert (H2 : dht22_verify_checksum Sim.frame_mild = DHT22_OK)
    by reflexivity.
  assert (H3 : 0 <= 1 < 5) by lia.
  assert (H4 : is_u8 0) by (unfold is_u8; lia).
  assert (H5 : 0 <> ix Sim.frame_mild 1) by (vm_compute; discriminate).
  split; [exact H1|]. split; [exact H2|]. split; [exact H3|].
  split; [exact H4|]. split; [exact H5|].
  exact (dht22_verify_checksum_single_byte Sim.frame_mild 1 0 H1 H2 H3 H4 H5).
Defined.

(** X10 for the frame that says 150.0 %. *)
Lemma dht22_convert_data_accepts_witness :
  frame_ok Sim.frame_humid /\
  (fst (dht22_convert_data Sim.frame_humid) = DHT22_OK <->
   256 * ix Sim.frame_humid 0 + ix Sim.frame_humid 1 <= 1000 /\
   256 * (ix Sim.frame_humid 2 mod 128) + ix Sim.frame_humid 3
   <= (if ix Sim.frame_humid 2 <? 128 then 800 else 400)).
Proof.
  assert (H1 : frame_ok Sim.frame_humid).
  { split; [reflexivity|].
    repeat (constructor; [unfold is_u8; lia|]). constructor. }
  split; [exact H1|].
  exact (dht22_convert_data_accepts Sim.frame_humid H1).
Defined.

(** X11 for two frames that differ in their checksum byte only. *)
Lemma dht22_convert_data_injective_witness :
  frame_ok Sim.frame_mild /\ frame_ok [1; 244; 0; 200; 0] /\
  snd (dht22_convert_data Sim.frame_mild)
  = snd (dht22_convert_data [1; 244; 0; 200; 0]) /\
  ix Sim.frame_mild 0 = ix [1; 244; 0; 200; 0] 0.
Proof.
  assert (H1 : frame_ok Sim.frame_mild).
  { split; [reflexivity|].
    repeat (constructor; [unfold is_u8; lia|]). constructor. }
  assert (H2 : frame_ok [1; 244; 0; 200; 0]).
  { split; [reflexivity|].
    repeat (constructor; [unfold is_u8; lia|]). constructor. }
  assert (H3 : snd (dht22_convert_data Sim.frame_mild)
               = snd (dht22_convert_data [1; 244; 0; 200; 0]))
    by reflexivity.
  split; [exact H1|]. split; [exact H2|]. split; [exact H3|].
  exact (proj1 (dht22_convert_data_injective Sim.frame_mild
                  [1; 244; 0; 200; 0] H1 H2 H3)).
Defined.

(** X12 for the capture of 50.0 % at 20.0 C. *)
Lemma dht22_read_data_round_trip_witness :
  frame_ok Sim.frame_mild /\
  fst (measured_pulses (Sim.sensor 5000000 (Sim.waveform Sim.frame_mild)) 40
         15 40 (Sim.listening Sim.frame_mild 15))
  = Some [25; 25; 25; 25; 25; 25; 25; 73; 65; 65; 73; 73; 25; 73; 25; 25;
          25; 25; 25; 25; 25; 25; 25; 25; 73; 73; 25; 25; 73; 25; 25; 25;
          65; 25; 65; 65; 73; 73; 25; 73] /\
  map bit_of_pulse
    [25; 25; 25; 25; 25; 25; 25; 73; 65; 65; 73; 73; 25; 73; 25; 25;
     25; 25; 25; 25; 25; 25; 25; 25; 73; 73; 25; 25; 73; 25; 25; 25;
     65; 25; 65; 65; 73; 73; 25; 73]
  = wire_bits Sim.frame_mild /\
  fst (dht22_read_data (Sim.sensor 5000000 (Sim.waveform Sim.frame_mild)) 40
         15 [0; 0; 0; 0; 0] (Sim.listening Sim.frame_mild 15))
  = Some (DHT22_OK, Sim.frame_mild).
Proof.
  assert (H1 : frame_ok Sim.frame_mild).
  { split; [reflexivity|].
    repeat (constructor; [unfold is_u8; lia|]). constructor. }
  assert (H2 : fst (measured_pulses
                      (Sim.sensor 5000000 (Sim.waveform Sim.frame_mild)) 40
                      15 40 (Sim.listening Sim.frame_mild 15))
               = Some [25; 25; 25; 25; 25; 25; 25; 73; 65; 65; 73; 73; 25;
                       73; 25; 25; 25; 25; 25; 25; 25; 25; 25; 25; 73; 73;
                       25; 25; 73; 25; 25; 25; 65; 25; 65; 65; 73; 73; 25;
                       73])
    by (vm_compute; reflexivity).
  assert (H3 : map bit_of_pulse
                 [25; 25; 25; 25; 25; 25; 25; 73; 65; 65; 73; 73; 25; 73;
                  25; 25; 25; 25; 25; 25; 25; 25; 25; 25; 73; 73; 25; 25;
                  73; 25; 25; 25; 65; 25; 65; 65; 73; 73; 25; 73]
               = wire_bits Sim.frame_mild)
    by (vm_compute; reflexivity).
  split; [exact H1|]. split; [exact H2|]. split; [exact H3|].
  exact (dht22_read_data_round_trip
           (Sim.sensor 5000000 (Sim.waveform Sim.frame_mild)) 40 15
           (Sim.listening Sim.frame_mild 15) Sim.frame_mild _ H1 H2 H3).
Defined.
